(** * JupyterLite dynamic loader (utils/jupyterlite-loader.ts)

    A shallow embedding of the loader module of the Next.js integration:
    the theme application ([applyThemeToContainer], [applyAutoTheme]),
    the instance registry ([instances],
    [initializeKernelBridgeForContainer], [cleanupJupyterLiteInstance]),
    the container initialisation ([initializeInContainer]) and the
    federated-extension loading ([loadScript], [loadComponent] and the
    extension phase of [loadJupyterLiteBootstrap]).

    JavaScript strings are modelled as Rocq strings of 8-bit code units
    (Latin-1); exceptions and DOM mutation are threaded through a small
    state-and-exception monad; promises that are awaited one after the
    other are sequenced, and the fan-out of [Promise.allSettled] is an
    explicit event loop over per-descriptor tasks. *)

From Stdlib Require Import List String Ascii Bool Arith Lia DecimalString DecimalNat.
Import ListNotations.
#[local] Set Warnings "-register-all".
Open Scope string_scope.
Open Scope list_scope.

(* ------------------------------------------------------------------ *)
(** ** JavaScript string primitives *)
(* ------------------------------------------------------------------ *)

Module JsString.

(** The double-quote character (code 34). *)
Definition dquote : ascii := "034"%char.

(** [String.prototype.toLowerCase] on one Latin-1 code unit: A-Z and the
    accented capitals 192..222 (except the multiplication sign 215) move
    up by 32. *)
Definition lower_char (c : ascii) : ascii :=
  let n := nat_of_ascii c in
  if (((65 <=? n) && (n <=? 90)) ||
      ((192 <=? n) && (n <=? 222) && negb (n =? 215)))%nat
  then ascii_of_nat (n + 32) else c.

Fixpoint toLowerCase (s : string) : string :=
  match s with
  | EmptyString => EmptyString
  | String c r => String (lower_char c) (toLowerCase r)
  end.

(** [s.startsWith(p)]. *)
Fixpoint startsWith (p s : string) : bool :=
  match p, s with
  | EmptyString, _ => true
  | String a p', String b s' => Ascii.eqb a b && startsWith p' s'
  | String _ _, EmptyString => false
  end.

(** [s.includes(p)]: [p] occurs in [s] at some offset. *)
Fixpoint includes (s p : string) : bool :=
  startsWith p s ||
  match s with
  | EmptyString => false
  | String _ r => includes r p
  end.

(** Truthiness of a string value: only the empty string is falsy. *)
Definition truthy (s : string) : bool :=
  match s with EmptyString => false | String _ _ => true end.

(** [a || b] on string values. *)
Definition or_default (a : option string) (d : string) : string :=
  match a with
  | Some s => if truthy s then s else d
  | None => d
  end.

(** The regular-expression class [\s] restricted to 8-bit code units:
    TAB, LF, VT, FF, CR, SPACE and NBSP. *)
Definition is_space (c : ascii) : bool :=
  let n := nat_of_ascii c in
  (((9 <=? n) && (n <=? 13)) || (n =? 32) || (n =? 160))%nat.

(** Greedy [\s*]: what is left after the leading white space. *)
Fixpoint skip_spaces (s : string) : string :=
  match s with
  | String c r => if is_space c then skip_spaces r else s
  | EmptyString => EmptyString
  end.

(** Greedy run of characters other than the double quote: the longest
    quote-free prefix and the rest. *)
Fixpoint take_non_quote (s : string) : string * string :=
  match s with
  | String c r =>
      if Ascii.eqb c dquote then (EmptyString, s)
      else let '(n, rest) := take_non_quote r in (String c n, rest)
  | EmptyString => (EmptyString, EmptyString)
  end.

(** Matching a literal under the [i] flag (no [u] flag): a pattern
    character and an input character agree when their case-folded forms
    do; only ASCII letters occur in the pattern used here. *)
Fixpoint strip_prefix_ci (p s : string) : option string :=
  match p, s with
  | EmptyString, _ => Some s
  | String a p', String b s' =>
      if Ascii.eqb (lower_char a) (lower_char b) then strip_prefix_ci p' s' else None
  | String _ _, EmptyString => None
  end.

End JsString.

(* ------------------------------------------------------------------ *)
(** ** The container's DOM subtree *)
(* ------------------------------------------------------------------ *)

Module Dom.

(** An element: its object identity ([handle]), its [id] attribute, its
    class list and its children in document order. *)
Inductive element : Type :=
  Element (handle : nat) (id : string) (classList : list string)
          (children : list element).

Definition handle_of (e : element) : nat :=
  match e with Element h _ _ _ => h end.
Definition id_of (e : element) : string :=
  match e with Element _ i _ _ => i end.
Definition classList (e : element) : list string :=
  match e with Element _ _ c _ => c end.
Definition children (e : element) : list element :=
  match e with Element _ _ _ k => k end.

(** [DOMTokenList.contains / add / remove]. *)
Definition contains (cls : string) (l : list string) : bool :=
  existsb (String.eqb cls) l.
Definition token_add (cls : string) (l : list string) : list string :=
  if contains cls l then l else l ++ [cls].
Definition token_remove (cls : string) (l : list string) : list string :=
  filter (fun c => negb (String.eqb cls c)) l.
Definition tokens_remove (clss : list string) (l : list string) : list string :=
  fold_left (fun acc c => token_remove c acc) clss l.

(** First element, in document order, of the forest [l] whose id is [i]. *)
Fixpoint find_id (i : string) (e : element) : option element :=
  match e with
  | Element _ i' _ kids =>
      if String.eqb i' i then Some e
      else (fix scan (l : list element) : option element :=
              match l with
              | [] => None
              | k :: r => match find_id i k with
                          | Some x => Some x
                          | None => scan r
                          end
              end) kids
  end.

Fixpoint find_id_forest (i : string) (l : list element) : option element :=
  match l with
  | [] => None
  | k :: r => match find_id i k with
              | Some x => Some x
              | None => find_id_forest i r
              end
  end.

(** [container.querySelector('#i')]: descendants only, the container
    itself is not a candidate.  The result is a reference to the node. *)
Definition querySelector (i : string) (container : element) : option nat :=
  option_map handle_of (find_id_forest i (children container)).

(** All ids carried by the elements of a subtree. *)
Fixpoint ids (e : element) : list string :=
  match e with
  | Element _ i _ kids => i :: flat_map ids kids
  end.

Definition descendant_ids (container : element) : list string :=
  flat_map ids (children container).

(** Mutating the class list of the node referenced by [h], wherever it
    sits in the subtree. *)
Fixpoint update_classes (h : nat) (f : list string -> list string)
         (e : element) : element :=
  match e with
  | Element h' i c kids =>
      Element h' i (if Nat.eqb h' h then f c else c)
              (map (update_classes h f) kids)
  end.

(** [node.remove()]: the node referenced by [h] leaves its parent. *)
Fixpoint detach (h : nat) (e : element) : element :=
  match e with
  | Element h' i c kids =>
      Element h' i c
        ((fix prune (l : list element) : list element :=
            match l with
            | [] => []
            | k :: r => if Nat.eqb (handle_of k) h then prune r
                        else detach h k :: prune r
            end) kids)
  end.

(** Structural induction that reaches the children. *)
Fixpoint element_forall_ind (P : element -> Prop)
         (step : forall h i c kids, Forall P kids -> P (Element h i c kids))
         (e : element) : P e :=
  match e with
  | Element h i c kids =>
      step h i c kids
           ((fix all (l : list element) : Forall P l :=
               match l with
               | [] => Forall_nil P
               | k :: r => Forall_cons k (element_forall_ind P step k) (all r)
               end) kids)
  end.

(** Mutating the container's own class list. *)
Definition map_classes (f : list string -> list string) (e : element) : element :=
  match e with
  | Element h i c kids => Element h i (f c) kids
  end.

End Dom.

(* ------------------------------------------------------------------ *)
(** ** Page state, exceptions and the execution monad *)
(* ------------------------------------------------------------------ *)

Module Js.

(** A thrown JavaScript value: [new Error(message)]. *)
Inductive exn : Type := Error (message : string).

(** Operations on the persisted-settings store, in the order issued. *)
Inductive storage_op : Type :=
| ImportLocalforage
| CreateInstance (name storeName : string)
| GetItem (key : string).

Inductive console_entry : Type :=
| ConsoleLog (text : string)
| ConsoleWarn (text : string) (e : exn)
| ConsoleError (text : string) (e : exn).

(** A [<script>] element appended to [document.head]. *)
Record script : Type := { src : string; async : bool }.

(** A record of the [instances] map. *)
Record instance : Type :=
  { inst_container : nat;           (* reference to the container element *)
    inst_jupyter : option nat;      (* window.jupyter at registration *)
    inst_bridge : option nat }.     (* window.jupyterKernelBridge at registration *)

(** Calls into webpack module federation, in the order issued. *)
Inductive federation_call : Type :=
| CallInitSharing (scopeName : string)
| CallContainerInit (scope : string).

(** The callback handed to [setTimeout] by [initializeInContainer]; it
    closes over the loading indicator found at the start of the call. *)
Inductive timer_callback : Type :=
| DelayedCleanup (loadingIndicator : option nat).

(** Everything the module reads or writes: the container being mounted,
    [document.head], the console, the storage traffic, the module-level
    [instances] map (a JavaScript [Map], kept in insertion order), the
    two page-global bridge handles, the pending timers and the calls
    made into module federation. *)
Record page : Type :=
  { dom : Dom.element;
    head : list script;
    console : list console_entry;
    storage_io : list storage_op;
    instances : list (string * instance);
    window_jupyter : option nat;
    window_jupyterKernelBridge : option nat;
    timers : list (nat * timer_callback);
    federation : list federation_call }.

Definition set_dom (f : Dom.element -> Dom.element) (p : page) : page :=
  {| dom := f (dom p); head := head p; console := console p;
     storage_io := storage_io p; instances := instances p;
     window_jupyter := window_jupyter p;
     window_jupyterKernelBridge := window_jupyterKernelBridge p;
     timers := timers p; federation := federation p |}.

Definition set_head (f : list script -> list script) (p : page) : page :=
  {| dom := dom p; head := f (head p); console := console p;
     storage_io := storage_io p; instances := instances p;
     window_jupyter := window_jupyter p;
     window_jupyterKernelBridge := window_jupyterKernelBridge p;
     timers := timers p; federation := federation p |}.

Definition set_console (f : list console_entry -> list console_entry) (p : page) : page :=
  {| dom := dom p; head := head p; console := f (console p);
     storage_io := storage_io p; instances := instances p;
     window_jupyter := window_jupyter p;
     window_jupyterKernelBridge := window_jupyterKernelBridge p;
     timers := timers p; federation := federation p |}.

Definition set_storage_io (f : list storage_op -> list storage_op) (p : page) : page :=
  {| dom := dom p; head := head p; console := console p;
     storage_io := f (storage_io p); instances := instances p;
     window_jupyter := window_jupyter p;
     window_jupyterKernelBridge := window_jupyterKernelBridge p;
     timers := timers p; federation := federation p |}.

Definition set_instances (f : list (string * instance) -> list (string * instance))
           (p : page) : page :=
  {| dom := dom p; head := head p; console := console p;
     storage_io := storage_io p; instances := f (instances p);
     window_jupyter := window_jupyter p;
     window_jupyterKernelBridge := window_jupyterKernelBridge p;
     timers := timers p; federation := federation p |}.

Definition set_timers (f : list (nat * timer_callback) -> list (nat * timer_callback))
           (p : page) : page :=
  {| dom := dom p; head := head p; console := console p;
     storage_io := storage_io p; instances := instances p;
     window_jupyter := window_jupyter p;
     window_jupyterKernelBridge := window_jupyterKernelBridge p;
     timers := f (timers p); federation := federation p |}.

Definition set_federation (f : list federation_call -> list federation_call)
           (p : page) : page :=
  {| dom := dom p; head := head p; console := console p;
     storage_io := storage_io p; instances := instances p;
     window_jupyter := window_jupyter p;
     window_jupyterKernelBridge := window_jupyterKernelBridge p;
     timers := timers p; federation := f (federation p) |}.

(** [delete window.jupyter; delete window.jupyterKernelBridge]. *)
Definition delete_globals (p : page) : page :=
  {| dom := dom p; head := head p; console := console p;
     storage_io := storage_io p; instances := instances p;
     window_jupyter := None;
     window_jupyterKernelBridge := None;
     timers := timers p; federation := federation p |}.

(** How a statement completes. *)
Inductive completion (A : Type) : Type :=
| Normal (a : A)
| Throw (e : exn).
Arguments Normal {A} a.
Arguments Throw {A} e.

(** Computations over the page that may throw. *)
Definition M (A : Type) : Type := page -> completion A * page.

Definition ret {A} (a : A) : M A := fun p => (Normal a, p).

Definition bind {A B} (c : M A) (k : A -> M B) : M B :=
  fun p => match c p with
           | (Normal a, p') => k a p'
           | (Throw e, p') => (Throw e, p')
           end.

Definition throw {A} (e : exn) : M A := fun p => (Throw e, p).

(** [try { body } catch (error) { handler }]: the handler runs on the
    page as the body left it. *)
Definition try_catch {A} (body : M A) (handler : exn -> M A) : M A :=
  fun p => match body p with
           | (Normal a, p') => (Normal a, p')
           | (Throw e, p') => handler e p'
           end.

Definition gets {A} (f : page -> A) : M A := fun p => (Normal (f p), p).
Definition modify (f : page -> page) : M unit := fun p => (Normal tt, f p).

Definition when (b : bool) (c : M unit) : M unit := if b then c else ret tt.

Definition console_warn (text : string) (e : exn) : M unit :=
  modify (set_console (fun l => l ++ [ConsoleWarn text e])).
Definition console_error (text : string) (e : exn) : M unit :=
  modify (set_console (fun l => l ++ [ConsoleError text e])).
Definition console_log (text : string) : M unit :=
  modify (set_console (fun l => l ++ [ConsoleLog text])).

End Js.

Declare Scope js_scope.
Delimit Scope js_scope with js.
Notation "x <- c ;; k" := (Js.bind c (fun x => k))
  (at level 61, c at next level, right associativity) : js_scope.
Notation "c ;; k" := (Js.bind c (fun _ => k))
  (at level 61, right associativity) : js_scope.

Open Scope js_scope.

(* ------------------------------------------------------------------ *)
(** ** Configuration (components/JupyterLiteComponent.tsx) *)
(* ------------------------------------------------------------------ *)

Inductive theme_pref : Type := light | dark | auto.

Record KernelBridgeConfig : Type :=
  { exposeToConsole : option bool;
    enableFileExecution : option bool }.

(** The fields of [JupyterLiteConfig] that the loader reads; every field
    is optional in the interface, [None] is [undefined]. *)
Record JupyterLiteConfig : Type :=
  { theme : option theme_pref;
    showLoadingIndicator : option bool;
    settingsStorageName : option string;
    enableKernelBridge : option bool;
    kernelBridgeConfig : option KernelBridgeConfig }.

(** Truthiness of an optional boolean. *)
Definition is_true (b : option bool) : bool :=
  match b with Some true => true | _ => false end.

(* ------------------------------------------------------------------ *)
(** ** Theme application *)
(* ------------------------------------------------------------------ *)

Module Theme.
Import Js.

Definition jp_mod_dark : string := "jp-mod-dark".
Definition jp_mod_light : string := "jp-mod-light".
Definition indicator_id : string := "jupyterlite-loading-indicator".
Definition themes_key : string := "@jupyterlab/apputils-extension:themes".

(** What the browser and the store do when asked: the outcome of the
    localforage sequence (dynamic import, [createInstance], [getItem]),
    and [window.matchMedia('(prefers-color-scheme: dark)').matches],
    [None] when the call throws because the signal is unavailable. *)
Inductive storage_behaviour : Type :=
| ImportFails (e : exn)
| CreateFails (e : exn)
| GetFails (e : exn)
| GetReturns (value : option string).

Record env : Type :=
  { storage : storage_behaviour;
    prefers_dark : option bool }.

(** The error of the storage layer, if the sequence fails at any step. *)
Definition storage_error (E : env) : option exn :=
  match storage E with
  | ImportFails e | CreateFails e | GetFails e => Some e
  | GetReturns _ => None
  end.

Definition theme_class (isDarkTheme : bool) : string :=
  if isDarkTheme then jp_mod_dark else jp_mod_light.

(** [container.classList.add(c)] and [container.classList.remove(...)]. *)
Definition container_add (c : string) : M unit :=
  modify (set_dom (Dom.map_classes (Dom.token_add c))).
Definition container_remove (cs : list string) : M unit :=
  modify (set_dom (Dom.map_classes (Dom.tokens_remove cs))).

(** [node.classList.add/remove] on a node found by [querySelector]. *)
Definition node_add (h : nat) (c : string) : M unit :=
  modify (set_dom (Dom.update_classes h (Dom.token_add c))).
Definition node_remove (h : nat) (c : string) : M unit :=
  modify (set_dom (Dom.update_classes h (Dom.token_remove c))).

Definition storage_do (op : storage_op) : M unit :=
  modify (set_storage_io (fun l => l ++ [op])).

(** [window.matchMedia('(prefers-color-scheme: dark)').matches]. *)
Definition matchMedia_dark (E : env) : M bool :=
  match prefers_dark E with
  | Some b => ret b
  | None => throw (Error "window.matchMedia is not a function")
  end.

(** Lines 146-156: import localforage, open the settings store of this
    session and read the themes entry. *)
Definition read_settings (E : env) (config : JupyterLiteConfig) : M (option string) :=
  storage_do ImportLocalforage ;;
  match storage E with
  | ImportFails e => throw e
  | CreateFails e =>
      storage_do (CreateInstance
                    (JsString.or_default (settingsStorageName config) "JupyterLite Storage")
                    "settings") ;;
      throw e
  | GetFails e =>
      storage_do (CreateInstance
                    (JsString.or_default (settingsStorageName config) "JupyterLite Storage")
                    "settings") ;;
      storage_do (GetItem themes_key) ;;
      throw e
  | GetReturns v =>
      storage_do (CreateInstance
                    (JsString.or_default (settingsStorageName config) "JupyterLite Storage")
                    "settings") ;;
      storage_do (GetItem themes_key) ;;
      ret v
  end.

(** The pattern literal of [themeRegex]: the word theme between double
    quotes. *)
Definition theme_literal : string :=
  String JsString.dquote ("theme" ++ String JsString.dquote EmptyString)%string.

(** One attempt of [themeRegex] at the start of [s]: the quoted key,
    white space, a colon, white space, an opening quote, at least one
    character other than a quote, a closing quote.  The capture group is
    the run between the two quotes; what [take_non_quote] leaves, when
    not empty, begins with the closing quote. *)
Definition match_theme_here (s : string) : option string :=
  match JsString.strip_prefix_ci theme_literal s with
  | None => None
  | Some r1 =>
      match JsString.skip_spaces r1 with
      | String c r2 =>
          if Ascii.eqb c ":"%char then
            match JsString.skip_spaces r2 with
            | String q r3 =>
                if Ascii.eqb q JsString.dquote then
                  match JsString.take_non_quote r3 with
                  | (String n ns, String _ _) => Some (String n ns)
                  | _ => None
                  end
                else None
            | EmptyString => None
            end
          else None
      | EmptyString => None
      end
  end.

(** [settings.match(themeRegex)], group 1: the leftmost match wins. *)
Fixpoint match_theme (s : string) : option string :=
  match match_theme_here s with
  | Some name => Some name
  | None => match s with
            | EmptyString => None
            | String _ r => match_theme r
            end
  end.

(** Lines 166-170. *)
Definition name_is_dark (name : string) : bool :=
  let themeName := JsString.toLowerCase name in
  JsString.includes themeName "dark" ||
  JsString.includes themeName "night" ||
  JsString.includes themeName "black".

(** Lines 158-171: [isDarkTheme] for a truthy stored entry. *)
Definition stored_isDarkTheme (settings : string) : bool :=
  match match_theme settings with
  | Some name => name_is_dark name
  | None => false
  end.

(** Lines 158-175: [isDarkTheme] once the read has returned. *)
Definition detect_isDarkTheme (E : env) (settings : option string) : M bool :=
  match settings with
  | Some s =>
      if JsString.truthy s then ret (stored_isDarkTheme s)
      else matchMedia_dark E
  | None => matchMedia_dark E
  end.

Definition applyAutoTheme (E : env) (config : JupyterLiteConfig) : M unit :=
  try_catch
    (settings <- read_settings E config ;;
     isDarkTheme <- detect_isDarkTheme E settings ;;
     container_remove [jp_mod_dark; jp_mod_light] ;;
     container_add (theme_class isDarkTheme))
    (fun error =>
       console_warn "Could not auto-detect theme:" error ;;
       isDarkTheme <- matchMedia_dark E ;;
       container_add (theme_class isDarkTheme)).

Definition applyThemeToContainer (E : env) (config : JupyterLiteConfig) : M unit :=
  loadingIndicator <- gets (fun p => Dom.querySelector indicator_id (dom p)) ;;
  match loadingIndicator with
  | None => ret tt
  | Some ind =>
      try_catch
        (match theme config with
         | Some dark =>
             container_add jp_mod_dark ;;
             container_remove [jp_mod_light]
         | Some light =>
             container_add jp_mod_light ;;
             container_remove [jp_mod_dark]
         | Some auto => applyAutoTheme E config
         | None => ret tt
         end ;;
         when (is_true (showLoadingIndicator config)) (node_remove ind "hidden"))
        (fun error =>
           console_warn "Could not apply theme to container:" error ;;
           container_add jp_mod_light ;;
           container_remove [jp_mod_dark])
  end.

End Theme.

(* ------------------------------------------------------------------ *)
(** ** The instance registry *)
(* ------------------------------------------------------------------ *)

Module Registry.
Import Js.

(** [Map.prototype.set]: an existing key keeps its position and takes
    the new value, a new key goes to the end. *)
Fixpoint map_set (k : string) (v : instance) (m : list (string * instance))
  : list (string * instance) :=
  match m with
  | [] => [(k, v)]
  | (k', v') :: r =>
      if String.eqb k' k then (k, v) :: r else (k', v') :: map_set k v r
  end.

Fixpoint map_get (k : string) (m : list (string * instance)) : option instance :=
  match m with
  | [] => None
  | (k', v') :: r => if String.eqb k' k then Some v' else map_get k r
  end.

(** [Map.prototype.has]. *)
Definition has_key (k : string) (m : list (string * instance)) : bool :=
  match map_get k m with Some _ => true | None => false end.

(** [Date.now()] printed in a template literal. *)
Definition decimal (n : nat) : string :=
  DecimalString.NilEmpty.string_of_uint (Nat.to_uint n).

(** [container.id || `container-${Date.now()}`]. *)
Definition instanceId (now : nat) (container : Dom.element) : string :=
  JsString.or_default (Some (Dom.id_of container)) ("container-" ++ decimal now)%string.

Definition initializeKernelBridgeForContainer (now : nat) (container : Dom.element)
  : M unit :=
  console_log "JupyterLite Kernel Bridge initialized for container" ;;
  console_log "Access via window.jupyter or inspect the container element" ;;
  modify (fun p =>
            set_instances
              (map_set (instanceId now container)
                       {| inst_container := Dom.handle_of container;
                          inst_jupyter := window_jupyter p;
                          inst_bridge := window_jupyterKernelBridge p |})
              p).

(** The loop of [cleanupJupyterLiteInstance]: walk the entries in
    insertion order, delete the first one whose container is the given
    element, and stop. *)
Fixpoint delete_first (h : nat) (m : list (string * instance))
  : list (string * instance) :=
  match m with
  | [] => []
  | (k, v) :: r =>
      if Nat.eqb (inst_container v) h then r else (k, v) :: delete_first h r
  end.

Definition cleanupJupyterLiteInstance (container : Dom.element) : M unit :=
  modify (set_instances (delete_first (Dom.handle_of container))) ;;
  size <- gets (fun p => List.length (instances p)) ;;
  when (Nat.eqb size 0) (modify delete_globals).

(** Whether some record of the registry holds the given container. *)
Definition registered (container : Dom.element) (p : page) : bool :=
  existsb (fun kv => Nat.eqb (inst_container (snd kv)) (Dom.handle_of container))
          (instances p).

End Registry.

(* ------------------------------------------------------------------ *)
(** ** Initialising the application in a container *)
(* ------------------------------------------------------------------ *)

Module Container.
Import Js.

(** The loaded application module: its [main] and [default] exports,
    each an asynchronous entry point acting on the page. *)
Record entry_module : Type :=
  { main : option (M unit);
    default : option (M unit) }.

(** Lines 312-318. *)
Definition invoke_entry (jupyterliteModule : entry_module) : M unit :=
  match main jupyterliteModule with
  | Some f => f
  | None =>
      match default jupyterliteModule with
      | Some f => f
      | None => throw (Error "JupyterLite module does not expose expected main function")
      end
  end.

(** [config.enableKernelBridge && config.kernelBridgeConfig?.exposeToConsole]. *)
Definition bridge_requested (config : JupyterLiteConfig) : bool :=
  is_true (enableKernelBridge config) &&
  match kernelBridgeConfig config with
  | Some k => is_true (exposeToConsole k)
  | None => false
  end.

(** Lines 305-308. *)
Definition hide_indicator : M (option nat) :=
  loadingIndicator <- gets (fun p => Dom.querySelector Theme.indicator_id (dom p)) ;;
  match loadingIndicator with
  | Some ind => Theme.node_add ind "hidden"
  | None => ret tt
  end ;;
  ret loadingIndicator.

Definition setTimeout (cb : timer_callback) (delay : nat) : M unit :=
  modify (set_timers (fun l => l ++ [(delay, cb)])).

Definition initializeInContainer (now : nat) (jupyterliteModule : entry_module)
           (config : JupyterLiteConfig) : M unit :=
  try_catch
    (loadingIndicator <- hide_indicator ;;
     invoke_entry jupyterliteModule ;;
     when (bridge_requested config)
          (container <- gets dom ;;
           Registry.initializeKernelBridgeForContainer now container) ;;
     setTimeout (DelayedCleanup loadingIndicator) 1000)
    (fun error =>
       console_error "Failed to initialize JupyterLite in container:" error ;;
       throw error).

(** The body of the timer callback, lines 327-331. *)
Definition run_callback (cb : timer_callback) : M unit :=
  match cb with
  | DelayedCleanup loadingIndicator =>
      match loadingIndicator with
      | Some ind => modify (set_dom (Dom.detach ind))
      | None => ret tt
      end ;;
      Theme.container_remove [Theme.jp_mod_dark; Theme.jp_mod_light]
  end.

End Container.

(* ------------------------------------------------------------------ *)
(** ** Loading federated extensions *)
(* ------------------------------------------------------------------ *)

Module Loader.
Import Js.

(** An entry of [federated_extensions]. *)
Record descriptor : Type := { name : string; load : string }.

(** The parsed [jupyter-config-data]. *)
Record configuration : Type :=
  { federated_extensions : option (list descriptor);
    fullLabextensionsUrl : option string }.

(** The registration object a bundle exposes under its name in
    [window._JUPYTERLAB]; [init_fails] is the rejection of its [init],
    if any. *)
Record federated_container : Type := { init_fails : option exn }.

(** What the browser does: whether a script URL fires [onload] (or
    [onerror]), whether [__webpack_init_sharing__('default')] rejects,
    and [window._JUPYTERLAB]: the loader only declares that global and
    never creates it, so it is [None] on a page where no bundle has
    created it, and otherwise the object that maps the names of the
    bundles to what they expose. *)
Record network : Type :=
  { script_loads : string -> bool;
    init_sharing_fails : option exn;
    JUPYTERLAB : option (string -> option federated_container) }.

(** Reading a property of [undefined] throws a [TypeError]. *)
Definition missing_registry_error (scope : string) : exn :=
  Error ("Cannot read properties of undefined (reading '" ++ scope ++ "')")%string.

(** [window._JUPYTERLAB[scope]], line 229. *)
Definition registry_lookup (N : network) (scope : string)
  : completion (option federated_container) :=
  match JUPYTERLAB N with
  | Some registry => Normal (registry scope)
  | None => Throw (missing_registry_error scope)
  end.

(** [PromiseSettledResult<void>]. *)
Inductive settled : Type :=
| Fulfilled
| Rejected (reason : exn).

Definition load_error (url : string) : exn :=
  Error ("Failed to load script: " ++ url)%string.

(** The executor of [loadScript]: the element is created and appended
    to [document.head] before the promise is returned. *)
Definition loadScript_append (url : string) : M unit :=
  modify (set_head (fun h => h ++ [{| src := url; async := true |}])).

(** How the promise of [loadScript] settles once the browser reports. *)
Definition loadScript_settle (N : network) (url : string) : settled :=
  if script_loads N url then Fulfilled else Rejected (load_error url).

(** [await loadScript(url)]. *)
Definition loadScript (N : network) (url : string) : M unit :=
  loadScript_append url ;;
  match loadScript_settle N url with
  | Fulfilled => ret tt
  | Rejected e => throw e
  end.

Definition federation_do (c : federation_call) : M unit :=
  modify (set_federation (fun l => l ++ [c])).

(** [await window.__webpack_init_sharing__('default')]. *)
Definition webpack_init_sharing (N : network) : M unit :=
  federation_do (CallInitSharing "default") ;;
  match init_sharing_fails N with
  | Some e => throw e
  | None => ret tt
  end.

(** [await container.init(window.__webpack_share_scopes__.default)]. *)
Definition container_init (scope : string) (c : federated_container) : M unit :=
  federation_do (CallContainerInit scope) ;;
  match init_fails c with
  | Some e => throw e
  | None => ret tt
  end.

(** [loadComponent] run from call to settlement, its awaits in sequence. *)
Definition loadComponent (N : network) (url scope : string) : M unit :=
  loadScript N url ;;
  webpack_init_sharing N ;;
  container <- (fun p => (registry_lookup N scope, p)) ;;
  match container with
  | Some c => container_init scope c
  | None => ret tt
  end.

(** [`${labExtensionUrl}/${data.name}/${data.load}`]. *)
Definition labExtensionUrl (configData : configuration) : string :=
  JsString.or_default (fullLabextensionsUrl configData) "/extensions".

Definition component_url (base : string) (data : descriptor) : string :=
  (base ++ "/" ++ name data ++ "/" ++ load data)%string.

(** *** The fan-out as an event loop

    Each callback of [extensionData.map(async ...)] is a task.  It runs
    synchronously up to its first [await] (so its script element is
    appended at once), and is then resumed each time the promise it
    waits for settles. *)
Inductive task : Type :=
| AwaitScript (url scope : string)
| AwaitSharing (scope : string)
| AwaitInit (scope : string) (container : federated_container)
| Done (result : settled).

(** The synchronous part of one callback. *)
Definition spawn (base : string) (data : descriptor) : M task :=
  loadScript_append (component_url base data) ;;
  ret (AwaitScript (component_url base data) (name data)).

Fixpoint spawn_all (base : string) (extensionData : list descriptor) : M (list task) :=
  match extensionData with
  | [] => ret []
  | data :: rest =>
      t <- spawn base data ;;
      ts <- spawn_all base rest ;;
      ret (t :: ts)
  end.

(** Resuming a suspended task with the settlement it waits for: the
    state it reaches and the federation calls it makes on the way. *)
Definition next (N : network) (t : task) : task * list federation_call :=
  match t with
  | AwaitScript url scope =>
      match loadScript_settle N url with
      | Fulfilled => (AwaitSharing scope, [CallInitSharing "default"])
      | Rejected e => (Done (Rejected e), [])
      end
  | AwaitSharing scope =>
      match init_sharing_fails N with
      | Some e => (Done (Rejected e), [])
      | None =>
          match registry_lookup N scope with
          | Throw e => (Done (Rejected e), [])
          | Normal (Some container) =>
              (AwaitInit scope container, [CallContainerInit scope])
          | Normal None => (Done Fulfilled, [])
          end
      end
  | AwaitInit scope container =>
      match init_fails container with
      | Some e => (Done (Rejected e), [])
      | None => (Done Fulfilled, [])
      end
  | Done r => (Done r, [])
  end.

Definition resume (N : network) (t : task) : M task :=
  modify (set_federation (fun l => l ++ snd (next N t))) ;;
  ret (fst (next N t)).

(** Resuming the task at position [i]; other tasks are left alone. *)
Fixpoint resume_at (N : network) (i : nat) (ts : list task) : M (list task) :=
  match ts, i with
  | [], _ => ret []
  | t :: rest, 0 => t' <- resume N t ;; ret (t' :: rest)
  | t :: rest, S j => rest' <- resume_at N j rest ;; ret (t :: rest')
  end.

(** A schedule is the order in which the browser delivers settlements,
    each named by the position of the task it wakes up. *)
Fixpoint run (N : network) (schedule : list nat) (ts : list task) : M (list task) :=
  match schedule with
  | [] => ret ts
  | i :: later => ts' <- resume_at N i ts ;; run N later ts'
  end.

(** [Promise.allSettled]: pending ([None]) until every input promise has
    settled, then fulfilled with the outcomes in input order.  It has no
    rejected state. *)
Fixpoint allSettled (ts : list task) : option (list settled) :=
  match ts with
  | [] => Some []
  | Done r :: rest => option_map (cons r) (allSettled rest)
  | _ :: _ => None
  end.

(** Lines 208-212. *)
Fixpoint report_failures (extensions : list settled) : M unit :=
  match extensions with
  | [] => ret tt
  | Rejected reason :: rest =>
      console_error "Failed to load extension:" reason ;;
      report_failures rest
  | Fulfilled :: rest => report_failures rest
  end.

(** [configData.federated_extensions || []]. *)
Definition extensionData (configData : configuration) : list descriptor :=
  match federated_extensions configData with
  | Some l => l
  | None => []
  end.

(** Lines 197-212 of [loadJupyterLiteBootstrap] under a schedule: [None]
    while the [await] on [Promise.allSettled] is still suspended, the
    outcomes once it has resumed; a [Throw] would be a rejection of the
    call. *)
Definition load_extensions (N : network) (schedule : list nat)
           (configData : configuration) : M (option (list settled)) :=
  ts <- spawn_all (labExtensionUrl configData) (extensionData configData) ;;
  ts' <- run N schedule ts ;;
  match allSettled ts' with
  | None => ret None
  | Some extensions => report_failures extensions ;; ret (Some extensions)
  end.

(** The settlement of one descriptor's attempt, read off [loadComponent]. *)
Definition outcome (N : network) (base : string) (data : descriptor) : settled :=
  match loadScript_settle N (component_url base data) with
  | Rejected e => Rejected e
  | Fulfilled =>
      match init_sharing_fails N with
      | Some e => Rejected e
      | None =>
          match registry_lookup N (name data) with
          | Throw e => Rejected e
          | Normal (Some container) =>
              match init_fails container with
              | Some e => Rejected e
              | None => Fulfilled
              end
          | Normal None => Fulfilled
          end
      end
  end.

(** *** The task list on its own

    The tasks only write to the federation call log, so their states
    can be followed without the page. *)

Definition script_of (base : string) (data : descriptor) : script :=
  {| src := component_url base data; async := true |}.

Definition initial_task (base : string) (data : descriptor) : task :=
  AwaitScript (component_url base data) (name data).

Definition step (N : network) (t : task) : task := fst (next N t).

Fixpoint step_at (N : network) (i : nat) (ts : list task) : list task :=
  match ts, i with
  | [], _ => []
  | t :: rest, 0 => step N t :: rest
  | t :: rest, S j => t :: step_at N j rest
  end.

Fixpoint run_tasks (N : network) (schedule : list nat) (ts : list task) : list task :=
  match schedule with
  | [] => ts
  | i :: later => run_tasks N later (step_at N i ts)
  end.

Definition result_of (t : task) : option settled :=
  match t with
  | Done r => Some r
  | _ => None
  end.

(** How many settlements an attempt consumes before it is settled: one
    per [await] it reaches in [loadComponent]. *)
Definition awaited (N : network) (base : string) (data : descriptor) : nat :=
  match loadScript_settle N (component_url base data) with
  | Rejected _ => 1
  | Fulfilled =>
      match init_sharing_fails N with
      | Some _ => 2
      | None =>
          match registry_lookup N (name data) with
          | Normal (Some _) => 3
          | _ => 2
          end
      end
  end.

(** How many settlements the schedule delivers to the task at [i]. *)
Definition deliveries (schedule : list nat) (i : nat) : nat :=
  count_occ Nat.eq_dec schedule i.

End Loader.

(* ------------------------------------------------------------------ *)
(** ** Views of the tree and of the registry *)
(* ------------------------------------------------------------------ *)

Module View.
Import Js.

(** The object identities of a subtree, in document order. *)
Fixpoint handles (e : Dom.element) : list nat :=
  match e with
  | Dom.Element h _ _ kids => h :: flat_map handles kids
  end.

Definition descendant_handles (container : Dom.element) : list nat :=
  flat_map handles (Dom.children container).

(** How many records of the registry hold the container referenced by
    [h]. *)
Fixpoint records_of (h : nat) (m : list (string * instance)) : nat :=
  match m with
  | [] => 0
  | (_, v) :: r =>
      if Nat.eqb (inst_container v) h then S (records_of h r) else records_of h r
  end.

(** The reasons of the rejected outcomes, in order. *)
Fixpoint rejections (l : list Loader.settled) : list exn :=
  match l with
  | [] => []
  | Loader.Fulfilled :: r => rejections r
  | Loader.Rejected e :: r => e :: rejections r
  end.

End View.

(* ------------------------------------------------------------------ *)
(** ** The placeholder content *)
(* ------------------------------------------------------------------ *)

Module Placeholder.
Import Js.

(** [document.createElement]: a new object, without id, class or child.
    Its identity is supplied by the caller of the model.  Text content
    and inline style are not part of the tree model. *)
Definition createElement (h : nat) : Dom.element := Dom.Element h "" [] [].

(** [e.innerHTML = markup] on a new element, seen through the element
    children that the markup creates. *)
Definition with_children (kids : list Dom.element) (e : Dom.element) : Dom.element :=
  match e with
  | Dom.Element h i c _ => Dom.Element h i c kids
  end.

(** [parent.appendChild(child)] for a child that is not yet attached. *)
Definition appendChild (child : Dom.element) (parent : Dom.element) : Dom.element :=
  match parent with
  | Dom.Element h i c kids => Dom.Element h i c (kids ++ [child])
  end.

(** Lines 38-40: remove the first child until there is none. *)
Fixpoint remove_children (kids : list Dom.element) : list Dom.element :=
  match kids with
  | [] => []
  | _ :: rest => remove_children rest
  end.

Definition clear (container : Dom.element) : Dom.element :=
  with_children (remove_children (Dom.children container)) container.

(** Lines 43-86: the wrapper with its title, its description (whose
    markup holds a line break and a strong element), its command box
    (strong, break, code, break, code, break) and the configuration
    line; identities are taken from [fresh] on, in creation order. *)
Definition wrapper (fresh : nat) : Dom.element :=
  let title := createElement (fresh + 1) in
  let description :=
    with_children [createElement (fresh + 3); createElement (fresh + 4)]
                  (createElement (fresh + 2)) in
  let commandBox :=
    with_children [createElement (fresh + 6); createElement (fresh + 7);
                   createElement (fresh + 8); createElement (fresh + 9);
                   createElement (fresh + 10); createElement (fresh + 11)]
                  (createElement (fresh + 5)) in
  let configInfo := createElement (fresh + 12) in
  appendChild configInfo
    (appendChild commandBox
       (appendChild description
          (appendChild title (createElement fresh)))).

Definition build_hint : string :=
  ("🔨 Run " ++ String JsString.dquote ("yarn build:jupyter" ++
   String JsString.dquote " to build packages and enable full functionality"))%string.

(** The exported [initializeJupyterLiteInContainer]; its [configScript]
    argument is not used by the body, and [config] only feeds the text
    of the configuration line. *)
Definition initializeJupyterLiteInContainer (fresh : nat) (config : JupyterLiteConfig)
  : M unit :=
  try_catch
    (console_log "🚀 Initializing JupyterLite in container..." ;;
     modify (set_dom clear) ;;
     modify (set_dom (appendChild (wrapper fresh))) ;;
     console_log "✅ JupyterLite container initialized (placeholder mode)" ;;
     console_log "📁 All JupyterLite source code is available in packages/ directory" ;;
     console_log build_hint)
    (fun error =>
       console_error "Failed to initialize JupyterLite:" error ;;
       throw error).

End Placeholder.

(* ------------------------------------------------------------------ *)
(** ** The bootstrap sequence *)
(* ------------------------------------------------------------------ *)

Module Bootstrap.
Import Js.

(** The configuration [{}]. *)
Definition empty_configuration : Loader.configuration :=
  {| Loader.federated_extensions := None; Loader.fullLabextensionsUrl := None |}.

(** [JSON.parse] as the page sees it: it throws, or returns [null]
    ([None]), or returns a value read through the two properties the
    loader asks for. *)
Definition json_parse : Type := string -> completion (option Loader.configuration).

(** [getConfigurationData]: [el] is the text content of the element
    with id jupyter-config-data, [None] when the page has no such
    element. *)
Definition getConfigurationData (parse : json_parse) (el : option string)
  : M (option Loader.configuration) :=
  match el with
  | None => ret (Some empty_configuration)
  | Some textContent =>
      try_catch
        (fun p => (parse (JsString.or_default (Some textContent) "{}"), p))
        (fun error =>
           console_warn "Failed to parse jupyter-config-data:" error ;;
           ret (Some empty_configuration))
  end.

Definition bootstrap_url : string := "/bootstrap.js".
Definition bootstrap_error : exn := Error "Failed to load JupyterLite bootstrap.js".

(** [loadJupyterLiteMain]: the script element is appended (a script
    made by [createElement] is asynchronous without being told), and
    the promise settles on the browser's report.  Creating and
    appending the element does not throw, so the catch branch of the
    executor is not reached.  The message of the failure branch goes to the console at error level in the source;
    the console of the model has no error entry without an error
    object, so only its text is kept. *)
Definition loadJupyterLiteMain (N : Loader.network) : M Container.entry_module :=
  modify (set_head (fun h => h ++ [{| src := bootstrap_url; async := true |}])) ;;
  if Loader.script_loads N bootstrap_url then
    console_log "✓ JupyterLite bootstrap loaded" ;;
    ret {| Container.main := Some (ret tt); Container.default := None |}
  else
    console_log "✗ Failed to load JupyterLite bootstrap" ;;
    throw bootstrap_error.

(** Reading a property of [null] throws a [TypeError]. *)
Definition null_property_error : exn :=
  Error "Cannot read properties of null (reading 'federated_extensions')".

(** [loadJupyterLiteBootstrap] under a schedule for the extension
    fan-out: [None] while the call is suspended on
    [Promise.allSettled], [Some tt] once it has returned. *)
Definition loadJupyterLiteBootstrap (N : Loader.network) (schedule : list nat)
           (now : nat) (parse : json_parse) (el : option string)
           (config : JupyterLiteConfig) : M (option unit) :=
  parsed <- getConfigurationData parse el ;;
  match parsed with
  | None => throw null_property_error
  | Some configData =>
      extensions <- Loader.load_extensions N schedule configData ;;
      match extensions with
      | None => ret None
      | Some _ =>
          jupyterliteModule <- loadJupyterLiteMain N ;;
          Container.initializeInContainer now jupyterliteModule config ;;
          ret (Some tt)
      end
  end.

End Bootstrap.

(* ------------------------------------------------------------------ *)
(** ** Vocabulary of the specification *)
(* ------------------------------------------------------------------ *)

(** [name] contains [pat] case-insensitively when some factor of [name]
    folds to [pat]. *)
Definition contains_ci (name pat : string) : Prop :=
  exists pre w post,
    name = (pre ++ w ++ post)%string /\ JsString.toLowerCase w = pat.

(** The dark-indicating substrings of the theme policy. *)
Definition dark_indicating (name : string) : Prop :=
  contains_ci name "dark" \/ contains_ci name "night" \/ contains_ci name "black".

(* ------------------------------------------------------------------ *)
(** ** Sample inputs *)
(* ------------------------------------------------------------------ *)

Module Sample.
Import Js.

(** A container holding the loading indicator (hidden) in a wrapper. *)
Definition with_indicator : Dom.element :=
  Dom.Element 0 "jupyter-root" ["jupyterlite-container"]
    [Dom.Element 1 "wrapper" []
       [Dom.Element 2 "jupyterlite-loading-indicator" ["hidden"] []]].

(** A container without any loading indicator. *)
Definition bare : Dom.element :=
  Dom.Element 0 "jupyter-root" ["jupyterlite-container"]
    [Dom.Element 1 "wrapper" [] []].

(** A second container, with no [id] attribute. *)
Definition anonymous : Dom.element := Dom.Element 7 "" [] [].

Definition page_of (container : Dom.element) : page :=
  {| dom := container; head := []; console := []; storage_io := [];
     instances := []; window_jupyter := None;
     window_jupyterKernelBridge := None; timers := []; federation := [] |}.

Definition config_of (t : theme_pref) : JupyterLiteConfig :=
  {| theme := Some t; showLoadingIndicator := Some true;
     settingsStorageName := None; enableKernelBridge := Some true;
     kernelBridgeConfig := Some {| exposeToConsole := Some true;
                                   enableFileExecution := Some true |} |}.

(** The stored settings text [{"theme": "JupyterLab Dark"}]. *)
Definition dark_settings : string :=
  ("{" ++ Theme.theme_literal ++ ": " ++
   String JsString.dquote ("JupyterLab Dark" ++ String JsString.dquote "}"))%string.

Definition store_returns (v : option string) (os : option bool) : Theme.env :=
  {| Theme.storage := Theme.GetReturns v; Theme.prefers_dark := os |}.

Definition store_fails (os : option bool) : Theme.env :=
  {| Theme.storage := Theme.GetFails (Error "QuotaExceededError");
     Theme.prefers_dark := os |}.

(** A page where the bridge handles are exposed page-globally and the
    registry is empty, as before any registration. *)
Definition bridge_exposed : page :=
  {| dom := with_indicator; head := []; console := []; storage_io := [];
     instances := []; window_jupyter := Some 41;
     window_jupyterKernelBridge := Some 42; timers := []; federation := [] |}.

(** The same page after the anonymous container has been registered
    once, at time 1000. *)
Definition once_registered : page :=
  snd (Registry.initializeKernelBridgeForContainer 1000 anonymous bridge_exposed).

(** Two extensions: the first loads and registers itself, the script
    of the second fails to load. *)
Definition good_extension : Loader.descriptor :=
  {| Loader.name := "@my/extension"; Loader.load := "remoteEntry.js" |}.
Definition broken_extension : Loader.descriptor :=
  {| Loader.name := "@my/broken"; Loader.load := "missing.js" |}.

Definition two_extensions : Loader.configuration :=
  {| Loader.federated_extensions := Some [good_extension; broken_extension];
     Loader.fullLabextensionsUrl := None |}.

Definition browser : Loader.network :=
  {| Loader.script_loads := fun url => String.eqb url "/extensions/@my/extension/remoteEntry.js";
     Loader.init_sharing_fails := None;
     Loader.JUPYTERLAB := Some (fun scope =>
       if String.eqb scope "@my/extension"
       then Some {| Loader.init_fails := None |} else None) |}.

(** A browser where every script loads and nothing registers itself. *)
Definition silent_browser : Loader.network :=
  {| Loader.script_loads := fun _ => true;
     Loader.init_sharing_fails := None;
     Loader.JUPYTERLAB := Some (fun _ => None) |}.

End Sample.

(* ------------------------------------------------------------------ *)
(** ** Further sample inputs *)
(* ------------------------------------------------------------------ *)

Module Scenario.
Import Js.

(** A second container that carries the same [id] attribute as
    [Sample.with_indicator]. *)
Definition twin : Dom.element := Dom.Element 9 "jupyter-root" [] [].

(** A registry with one record, held by [Sample.with_indicator]. *)
Definition one_instance : page :=
  snd (Registry.initializeKernelBridgeForContainer 1000 Sample.with_indicator
         Sample.bridge_exposed).

(** A registry with two records, both held by the id-less container. *)
Definition twice_registered : page :=
  snd (Registry.initializeKernelBridgeForContainer 1001 Sample.anonymous
         Sample.once_registered).

(** A registry with two records held by two containers. *)
Definition two_instances : page :=
  snd (Registry.initializeKernelBridgeForContainer 1001 Sample.anonymous
         one_instance).

(** [JSON.parse] oracles: one that returns a given value, one that
    throws. *)
Definition parses (value : option Loader.configuration) : Bootstrap.json_parse :=
  fun _ => Normal value.
Definition parse_fails : Bootstrap.json_parse :=
  fun _ => Throw (Error "Unexpected token < in JSON at position 0").

(** A browser like [Sample.browser] that also serves the bootstrap
    script, and one that serves everything but the bootstrap script. *)
Definition serving_bootstrap : Loader.network :=
  {| Loader.script_loads := fun url =>
       String.eqb url "/extensions/@my/extension/remoteEntry.js"
       || String.eqb url "/bootstrap.js";
     Loader.init_sharing_fails := None;
     Loader.JUPYTERLAB := Loader.JUPYTERLAB Sample.browser |}.

Definition missing_bootstrap : Loader.network :=
  {| Loader.script_loads := fun url => negb (String.eqb url "/bootstrap.js");
     Loader.init_sharing_fails := None;
     Loader.JUPYTERLAB := Some (fun _ => None) |}.

(** A page on which every script loads and the sharing scope
    initialises, but where nothing has created [window._JUPYTERLAB]. *)
Definition no_registry : Loader.network :=
  {| Loader.script_loads := fun _ => true;
     Loader.init_sharing_fails := None;
     Loader.JUPYTERLAB := None |}.

Definition only_good_extension : Loader.configuration :=
  {| Loader.federated_extensions := Some [Sample.good_extension];
     Loader.fullLabextensionsUrl := None |}.

(** A container that already carries the dark class and holds the
    loading indicator. *)
Definition dark_container : Dom.element :=
  Dom.Element 0 "jupyter-root" ["jupyterlite-container"; "jp-mod-dark"]
    [Dom.Element 2 "jupyterlite-loading-indicator" [] []].

(** An application module without entry point. *)
Definition no_entry : Container.entry_module :=
  {| Container.main := None; Container.default := None |}.

End Scenario.

(* ================================================================== *)
(** * Properties *)
(* ================================================================== *)

(** ** Class lists *)

Section TokenLists.
Import Dom.

Lemma contains_app (c : string) (l1 l2 : list string) :
  contains c (l1 ++ l2) = contains c l1 || contains c l2.
Proof. unfold contains. apply existsb_app. Qed.

Lemma contains_token_add_same (c : string) (l : list string) :
  contains c (token_add c l) = true.
Proof.
  unfold token_add. destruct (contains c l) eqn:Hc; [exact Hc|].
  rewrite contains_app. simpl. rewrite String.eqb_refl.
  now rewrite orb_true_r.
Qed.

Lemma contains_token_add_other (c d : string) (l : list string) :
  c <> d -> contains d (token_add c l) = contains d l.
Proof.
  intros Hne. unfold token_add. destruct (contains c l); [reflexivity|].
  rewrite contains_app. simpl.
  destruct (String.eqb_spec d c) as [->|_]; [congruence|].
  now rewrite !orb_false_r.
Qed.

Lemma contains_token_remove_same (c : string) (l : list string) :
  contains c (token_remove c l) = false.
Proof.
  unfold contains, token_remove. induction l as [|x l IH]; [reflexivity|].
  simpl. destruct (String.eqb_spec c x) as [->|Hne]; simpl; [exact IH|].
  destruct (String.eqb_spec c x); [congruence|exact IH].
Qed.

Lemma contains_token_remove_other (c d : string) (l : list string) :
  c <> d -> contains d (token_remove c l) = contains d l.
Proof.
  intros Hne. unfold contains, token_remove.
  induction l as [|x l IH]; [reflexivity|].
  simpl. destruct (String.eqb_spec c x) as [->|Hcx]; simpl.
  - destruct (String.eqb_spec d x); [congruence|exact IH].
  - now rewrite IH.
Qed.

Lemma contains_token_remove_false (c d : string) (l : list string) :
  contains d l = false -> contains d (token_remove c l) = false.
Proof.
  intros H. destruct (String.eqb_spec c d) as [->|Hne].
  - apply contains_token_remove_same.
  - now rewrite contains_token_remove_other.
Qed.

End TokenLists.

(** ** Substring search and case folding *)

Section Strings.
Import JsString.

Lemma startsWith_iff (p s : string) :
  startsWith p s = true <-> exists post, s = (p ++ post)%string.
Proof.
  revert s. induction p as [|a p IH]; intros s; simpl.
  - split; [intros _; now exists s | reflexivity].
  - destruct s as [|b s].
    + split; [discriminate | intros [post H]; discriminate].
    + rewrite andb_true_iff, IH. split.
      * intros [Hab [post ->]]. apply Ascii.eqb_eq in Hab. subst b.
        now exists post.
      * intros [post H]. injection H as -> ->. split.
        -- apply Ascii.eqb_refl.
        -- now exists post.
Qed.

(** [includes] finds exactly the occurrences of the pattern. *)
Lemma includes_iff (s p : string) :
  includes s p = true <-> exists pre post, s = (pre ++ p ++ post)%string.
Proof.
  induction s as [|c s IH].
  - unfold includes. rewrite orb_false_r, startsWith_iff. split.
    + intros [post H]. now exists EmptyString, post.
    + intros [pre [post H]]. destruct pre; simpl in H.
      * now exists post.
      * discriminate.
  - change (includes (String c s) p)
      with (startsWith p (String c s) || includes s p).
    rewrite orb_true_iff, startsWith_iff, IH. split.
    + intros [[post H] | [pre [post H]]].
      * now exists EmptyString, post.
      * exists (String c pre), post. simpl. now rewrite H.
    + intros [pre [post H]]. destruct pre as [|c' pre]; simpl in H.
      * left. now exists post.
      * right. injection H as _ H. now exists pre, post.
Qed.

Lemma append_empty_r (s : string) : (s ++ "")%string = s.
Proof. induction s as [|c s IH]; simpl; [reflexivity | now rewrite IH]. Qed.

Lemma toLowerCase_app (a b : string) :
  toLowerCase (a ++ b) = (toLowerCase a ++ toLowerCase b)%string.
Proof. induction a as [|c a IH]; simpl; [reflexivity | now rewrite IH]. Qed.

Lemma toLowerCase_split (s x y : string) :
  toLowerCase s = (x ++ y)%string ->
  exists a b, s = (a ++ b)%string /\ toLowerCase a = x /\ toLowerCase b = y.
Proof.
  revert s. induction x as [|c x IH]; intros s H.
  - exists EmptyString, s. now simpl in *.
  - destruct s as [|d s]; simpl in H; [discriminate|].
    injection H as Hc H. destruct (IH _ H) as [a [b [-> [Ha Hb]]]].
    exists (String d a), b. simpl. now rewrite Hc, Ha.
Qed.

Lemma includes_lower_iff (name pat : string) :
  includes (toLowerCase name) pat = true <-> contains_ci name pat.
Proof.
  rewrite includes_iff. unfold contains_ci. split.
  - intros [pre' [post' H]].
    destruct (toLowerCase_split _ _ _ H) as [pre [r [-> [_ Hr]]]].
    destruct (toLowerCase_split _ _ _ Hr) as [w [post [-> [Hw _]]]].
    now exists pre, w, post.
  - intros [pre [w [post [-> Hw]]]].
    exists (toLowerCase pre), (toLowerCase post).
    now rewrite !toLowerCase_app, Hw.
Qed.

End Strings.

(** ** Looking up an element by id *)

Section QuerySelector.
Import Dom.

Lemma find_id_unfold (i : string) (h : nat) (i' : string) (c : list string)
      (kids : list element) :
  find_id i (Element h i' c kids) =
  if String.eqb i' i then Some (Element h i' c kids) else find_id_forest i kids.
Proof.
  simpl. destruct (String.eqb i' i); [reflexivity|].
  induction kids as [|k r IH]; simpl; [reflexivity|].
  destruct (find_id i k); [reflexivity | exact IH].
Qed.

Lemma find_id_forest_none (i : string) (l : list element) :
  Forall (fun e => find_id i e = None <-> ~ In i (ids e)) l ->
  (find_id_forest i l = None <-> ~ In i (flat_map ids l)).
Proof.
  induction 1 as [|k r Hk _ IH]; simpl.
  - tauto.
  - rewrite in_app_iff. destruct (find_id i k) eqn:Hf.
    + split; [discriminate|]. intros Hn. exfalso.
      assert (Hk' : ~ In i (ids k)) by tauto.
      apply Hk in Hk'. discriminate.
    + assert (Hk' : ~ In i (ids k)) by (now apply Hk). tauto.
Qed.

Lemma find_id_none (i : string) (e : element) :
  find_id i e = None <-> ~ In i (ids e).
Proof.
  induction e as [h i' c kids IH] using element_forall_ind.
  rewrite find_id_unfold.
  change (ids (Element h i' c kids)) with (i' :: flat_map ids kids).
  simpl. destruct (String.eqb_spec i' i) as [->|Hne].
  - split; [discriminate | tauto].
  - rewrite (find_id_forest_none i kids IH). tauto.
Qed.

(** [querySelector] finds nothing exactly when no descendant carries
    the id. *)
Lemma querySelector_none (i : string) (container : element) :
  querySelector i container = None <-> ~ In i (descendant_ids container).
Proof.
  unfold querySelector, descendant_ids.
  rewrite <- (find_id_forest_none i (children container)).
  - destruct (find_id_forest i (children container)); simpl;
      split; congruence.
  - apply Forall_forall. intros e _. apply find_id_none.
Qed.

End QuerySelector.

(** ** Theme application *)

Section ThemeFacts.
Import Js Dom Theme.

Ltac js_unfold :=
  unfold applyThemeToContainer, applyAutoTheme, read_settings,
    detect_isDarkTheme, matchMedia_dark, container_add, container_remove,
    node_remove, node_add, storage_do, console_warn, when, try_catch,
    bind, ret, throw, gets, modify.

Lemma classList_map_classes (f : list string -> list string) (e : element) :
  classList (map_classes f e) = f (classList e).
Proof. now destruct e. Qed.

Lemma classList_update_classes (h : nat) (f : list string -> list string)
      (e : element) :
  classList (update_classes h f e) =
  if Nat.eqb (handle_of e) h then f (classList e) else classList e.
Proof. now destruct e. Qed.

(** Showing or hiding the indicator never touches a theme class. *)
Lemma contains_after_unhide (c : string) (h : nat) (e : element) :
  c <> "hidden" ->
  contains c (classList (update_classes h (token_remove "hidden") e)) =
  contains c (classList e).
Proof.
  intros Hne. rewrite classList_update_classes.
  destruct (Nat.eqb (handle_of e) h); [|reflexivity].
  apply contains_token_remove_other. congruence.
Qed.

Lemma theme_class_not_hidden (b : bool) : theme_class b <> "hidden".
Proof. destruct b; discriminate. Qed.

Lemma theme_class_negb (b : bool) : theme_class b <> theme_class (negb b).
Proof. destruct b; discriminate. Qed.

(** After both theme classes are removed and one is added, exactly that
    one is present. *)
Lemma contains_after_reset (b : bool) (l : list string) :
  contains (theme_class b)
           (token_add (theme_class b) (tokens_remove [jp_mod_dark; jp_mod_light] l)) = true
  /\ contains (theme_class (negb b))
              (token_add (theme_class b) (tokens_remove [jp_mod_dark; jp_mod_light] l)) = false.
Proof.
  split; [apply contains_token_add_same|].
  rewrite contains_token_add_other by apply theme_class_negb.
  unfold tokens_remove; simpl. destruct b; simpl.
  - apply contains_token_remove_same.
  - apply contains_token_remove_false, contains_token_remove_same.
Qed.

(** The auto branch, when the read returns a truthy entry. *)
Lemma applyAutoTheme_stored (E : env) (config : JupyterLiteConfig) (p : page)
      (s : string) :
  storage E = GetReturns (Some s) -> JsString.truthy s = true ->
  exists p',
    applyAutoTheme E config p = (Normal tt, p') /\
    classList (dom p') =
    token_add (theme_class (stored_isDarkTheme s))
              (tokens_remove [jp_mod_dark; jp_mod_light] (classList (dom p))).
Proof.
  intros Hs Ht. js_unfold. rewrite Hs. simpl. rewrite Ht. simpl.
  eexists; split; [reflexivity|]. simpl.
  now rewrite !classList_map_classes.
Qed.

(** The auto branch, when the read returns nothing usable and the
    system preference is known. *)
Lemma applyAutoTheme_absent (E : env) (config : JupyterLiteConfig) (p : page)
      (v : option string) (b : bool) :
  storage E = GetReturns v ->
  match v with Some s => JsString.truthy s = false | None => True end ->
  prefers_dark E = Some b ->
  exists p',
    applyAutoTheme E config p = (Normal tt, p') /\
    classList (dom p') =
    token_add (theme_class b)
              (tokens_remove [jp_mod_dark; jp_mod_light] (classList (dom p))).
Proof.
  intros Hs Hv Hos. js_unfold. rewrite Hs. simpl.
  destruct v as [s|]; [rewrite Hv|]; rewrite Hos; simpl;
    (eexists; split; [reflexivity|]); simpl;
    now rewrite !classList_map_classes.
Qed.

(** The auto branch, when the storage layer fails. *)
Lemma applyAutoTheme_failed (E : env) (config : JupyterLiteConfig) (p : page)
      (e : exn) :
  storage_error E = Some e ->
  match prefers_dark E with
  | Some b =>
      exists p',
        applyAutoTheme E config p = (Normal tt, p') /\
        classList (dom p') = token_add (theme_class b) (classList (dom p))
  | None =>
      exists e' p',
        applyAutoTheme E config p = (Throw e', p') /\ dom p' = dom p
  end.
Proof.
  unfold storage_error. intros He. js_unfold.
  destruct (storage E); try discriminate;
    destruct (prefers_dark E); simpl;
      repeat (eexists; try (split; [reflexivity|]));
      simpl; now rewrite ?classList_map_classes.
Qed.

End ThemeFacts.

Section ThemeClaims.
Import Js Dom Theme.

Lemma name_is_dark_iff (name : string) :
  name_is_dark name = true <-> dark_indicating name.
Proof.
  unfold name_is_dark, dark_indicating.
  now rewrite !orb_true_iff, !includes_lower_iff, or_assoc.
Qed.

Lemma stored_isDarkTheme_iff (s : string) :
  stored_isDarkTheme s = true <->
  exists name, match_theme s = Some name /\ dark_indicating name.
Proof.
  unfold stored_isDarkTheme. destruct (match_theme s) as [name|].
  - rewrite name_is_dark_iff. split.
    + intros H. now exists name.
    + intros [n [Hn H]]. now injection Hn as ->.
  - split; [discriminate | intros [n [Hn _]]; discriminate].
Qed.

(** C4, as the specification words it, fails in two places.  An entry
    that is stored but empty is present and yields no theme name, so
    the claim wants light whatever the system says; the code treats the
    empty string as absent and follows a dark system preference.  And
    when the read fails on a container that already carries the dark
    class while the system prefers light, the claim wants light; the
    container keeps the dark class. *)
Lemma auto_theme_claim_fails :
  (storage (Sample.store_returns (Some "") (Some true)) = GetReturns (Some "")
   /\ match_theme "" = None
   /\ contains jp_mod_dark
        (classList (dom (snd (applyAutoTheme
                                (Sample.store_returns (Some "") (Some true))
                                (Sample.config_of auto)
                                (Sample.page_of Sample.with_indicator))))) = true
   /\ contains jp_mod_light
        (classList (dom (snd (applyAutoTheme
                                (Sample.store_returns (Some "") (Some true))
                                (Sample.config_of auto)
                                (Sample.page_of Sample.with_indicator))))) = false)
  /\ (storage_error (Sample.store_fails (Some false)) = Some (Error "QuotaExceededError")
      /\ prefers_dark (Sample.store_fails (Some false)) = Some false
      /\ contains jp_mod_dark
           (classList (dom (snd (applyAutoTheme
                                   (Sample.store_fails (Some false))
                                   (Sample.config_of auto)
                                   (Sample.page_of Scenario.dark_container))))) = true).
Proof. repeat split; reflexivity. Qed.

(** C4 (amended): under preference auto, a stored and non-empty
    theme-settings entry makes the container dark exactly when the
    extracted theme name contains, case-insensitively, dark, night or
    black, and light otherwise, whatever the system preference; an
    absent or empty entry gives the system preference; and when the
    read fails, a container that does not carry the theme class of the
    other mode ends in the mode of the system preference. *)
Theorem auto_theme_resolution (E : env) (config : JupyterLiteConfig) (p : page) :
  (forall s, storage E = GetReturns (Some s) -> s <> "" ->
     fst (applyAutoTheme E config p) = Normal tt
     /\ (contains jp_mod_dark (classList (dom (snd (applyAutoTheme E config p)))) = true
         <-> exists name, match_theme s = Some name /\ dark_indicating name)
     /\ contains jp_mod_light (classList (dom (snd (applyAutoTheme E config p))))
        = negb (contains jp_mod_dark (classList (dom (snd (applyAutoTheme E config p))))))
  /\ (forall v b, storage E = GetReturns v -> v = None \/ v = Some "" ->
        prefers_dark E = Some b ->
        fst (applyAutoTheme E config p) = Normal tt
        /\ contains jp_mod_dark (classList (dom (snd (applyAutoTheme E config p)))) = b
        /\ contains jp_mod_light (classList (dom (snd (applyAutoTheme E config p)))) = negb b)
  /\ (forall e b, storage_error E = Some e -> prefers_dark E = Some b ->
        contains (theme_class (negb b)) (classList (dom p)) = false ->
        fst (applyAutoTheme E config p) = Normal tt
        /\ contains jp_mod_dark (classList (dom (snd (applyAutoTheme E config p)))) = b
        /\ contains jp_mod_light (classList (dom (snd (applyAutoTheme E config p)))) = negb b).
Proof.
  split; [|split].
  - intros s Hs Hne.
    assert (Ht : JsString.truthy s = true) by (destruct s; [congruence | reflexivity]).
    destruct (applyAutoTheme_stored E config p s Hs Ht) as [p' [Hrun Hcl]].
    rewrite Hrun; simpl. rewrite Hcl.
    destruct (contains_after_reset (stored_isDarkTheme s) (classList (dom p)))
      as [Hin Hout].
    rewrite <- stored_isDarkTheme_iff.
    destruct (stored_isDarkTheme s); simpl in *; rewrite Hin, Hout;
      repeat split; congruence.
  - intros v b Hs Hv Hos.
    destruct (applyAutoTheme_absent E config p v b Hs) as [p' [Hrun Hcl]];
      [destruct Hv as [-> | ->]; simpl; trivial | exact Hos |].
    rewrite Hrun; simpl. rewrite Hcl.
    destruct (contains_after_reset b (classList (dom p))) as [Hin Hout].
    destruct b; simpl in *; rewrite Hin, Hout; repeat split; reflexivity.
  - intros e b He Hos Hclean.
    pose proof (applyAutoTheme_failed E config p e He) as H.
    rewrite Hos in H. destruct H as [p' [Hrun Hcl]].
    rewrite Hrun; simpl. rewrite Hcl.
    assert (Hin : contains (theme_class b)
                           (token_add (theme_class b) (classList (dom p))) = true)
      by apply contains_token_add_same.
    assert (Hout : contains (theme_class (negb b))
                            (token_add (theme_class b) (classList (dom p))) = false)
      by (rewrite contains_token_add_other by apply theme_class_negb; exact Hclean).
    destruct b; simpl in *; rewrite Hin, Hout; repeat split; reflexivity.
Qed.

Lemma auto_theme_resolution_witness :
  (contains jp_mod_dark
     (classList (dom (snd (applyAutoTheme
                             (Sample.store_returns (Some Sample.dark_settings) (Some false))
                             (Sample.config_of auto)
                             (Sample.page_of Sample.with_indicator))))) = true
   <-> exists name, match_theme Sample.dark_settings = Some name /\ dark_indicating name)
  /\ contains jp_mod_dark
       (classList (dom (snd (applyAutoTheme
                               (Sample.store_returns None (Some true))
                               (Sample.config_of auto)
                               (Sample.page_of Sample.with_indicator))))) = true
  /\ contains jp_mod_dark
       (classList (dom (snd (applyAutoTheme
                               (Sample.store_fails (Some true))
                               (Sample.config_of auto)
                               (Sample.page_of Sample.with_indicator))))) = true.
Proof.
  split; [|split].
  - apply (proj1 (auto_theme_resolution
                    (Sample.store_returns (Some Sample.dark_settings) (Some false))
                    (Sample.config_of auto)
                    (Sample.page_of Sample.with_indicator))
                 Sample.dark_settings); [reflexivity | discriminate].
  - apply (proj1 (proj2 (auto_theme_resolution
                           (Sample.store_returns None (Some true))
                           (Sample.config_of auto)
                           (Sample.page_of Sample.with_indicator)))
                 None true); [reflexivity | now left | reflexivity].
  - apply (proj2 (proj2 (auto_theme_resolution
                           (Sample.store_fails (Some true))
                           (Sample.config_of auto)
                           (Sample.page_of Sample.with_indicator)))
                 (Error "QuotaExceededError") true); reflexivity.
Defined.

End ThemeClaims.

Section ThemeGuards.
Import Js Dom Theme.

Ltac js_run :=
  unfold applyThemeToContainer, applyAutoTheme, read_settings,
    detect_isDarkTheme, matchMedia_dark, container_add, container_remove,
    node_remove, node_add, storage_do, console_warn, when, try_catch,
    bind, ret, throw, gets, modify.

Example stored_dark_theme_wins :
  applyThemeToContainer (Sample.store_returns (Some Sample.dark_settings) (Some false))
                        (Sample.config_of auto)
                        (Sample.page_of Sample.with_indicator)
  = (Normal tt,
     set_storage_io
       (fun _ => [ImportLocalforage;
                  CreateInstance "JupyterLite Storage" "settings";
                  GetItem themes_key])
       (Sample.page_of
          (Element 0 "jupyter-root" ["jupyterlite-container"; "jp-mod-dark"]
             [Element 1 "wrapper" []
                [Element 2 "jupyterlite-loading-indicator" [] []]]))).
Proof. reflexivity. Qed.

(** C8: without a descendant carrying the id of the loading indicator,
    [applyThemeToContainer] returns at once and leaves the whole page,
    the container's class list included, exactly as it was, whatever
    the preference. *)
Theorem apply_theme_without_indicator (E : env) (config : JupyterLiteConfig)
        (p : page) :
  ~ In indicator_id (descendant_ids (dom p)) ->
  applyThemeToContainer E config p = (Normal tt, p).
Proof.
  intros Hno. apply querySelector_none in Hno.
  unfold applyThemeToContainer, bind, gets, ret. now rewrite Hno.
Qed.

Lemma apply_theme_without_indicator_witness :
  ~ In indicator_id (descendant_ids (dom (Sample.page_of Sample.bare)))
  /\ applyThemeToContainer (Sample.store_returns None (Some true))
                           (Sample.config_of dark)
                           (Sample.page_of Sample.bare)
     = (Normal tt, Sample.page_of Sample.bare).
Proof.
  assert (H : ~ In indicator_id (descendant_ids (dom (Sample.page_of Sample.bare)))).
  { simpl. intros [H | [ ]]. discriminate H. }
  split; [exact H|].
  exact (apply_theme_without_indicator (Sample.store_returns None (Some true))
           (Sample.config_of dark) (Sample.page_of Sample.bare) H).
Defined.

(** C6, as the specification words it, fails on a container without a
    loading indicator: the preference is dark, yet no dark class is
    put on the container. *)
Lemma explicit_dark_without_indicator :
  theme (Sample.config_of dark) = Some dark
  /\ contains jp_mod_dark
       (classList (dom (snd (applyThemeToContainer
                               (Sample.store_returns None (Some true))
                               (Sample.config_of dark)
                               (Sample.page_of Sample.bare))))) = false.
Proof. split; reflexivity. Qed.

(** C6 (amended): on a container that holds the loading indicator, an
    explicit dark or light preference is applied at once: the call
    returns normally, issues no storage operation, and the container
    carries the class of the preference and not the other one. *)
Theorem explicit_theme_applied (E : env) (config : JupyterLiteConfig)
        (p : page) (ind : nat) (isDark : bool) :
  querySelector indicator_id (dom p) = Some ind ->
  theme config = Some (if isDark then dark else light) ->
  fst (applyThemeToContainer E config p) = Normal tt
  /\ storage_io (snd (applyThemeToContainer E config p)) = storage_io p
  /\ contains (theme_class isDark)
              (classList (dom (snd (applyThemeToContainer E config p)))) = true
  /\ contains (theme_class (negb isDark))
              (classList (dom (snd (applyThemeToContainer E config p)))) = false.
Proof.
  intros Hq Ht. js_run. rewrite Hq, Ht.
  destruct isDark, (is_true (showLoadingIndicator config)); simpl;
    rewrite ?contains_after_unhide by discriminate;
    rewrite !classList_map_classes; unfold tokens_remove; simpl;
    repeat split;
    first [ apply contains_token_remove_same
          | rewrite contains_token_remove_other by discriminate;
            apply contains_token_add_same ].
Qed.

Lemma explicit_theme_applied_witness :
  fst (applyThemeToContainer (Sample.store_fails None) (Sample.config_of dark)
                             (Sample.page_of Sample.with_indicator)) = Normal tt
  /\ storage_io (snd (applyThemeToContainer (Sample.store_fails None)
                        (Sample.config_of dark)
                        (Sample.page_of Sample.with_indicator))) = []
  /\ contains jp_mod_dark
       (classList (dom (snd (applyThemeToContainer (Sample.store_fails None)
                               (Sample.config_of dark)
                               (Sample.page_of Sample.with_indicator))))) = true
  /\ contains jp_mod_light
       (classList (dom (snd (applyThemeToContainer (Sample.store_fails None)
                               (Sample.config_of dark)
                               (Sample.page_of Sample.with_indicator))))) = false.
Proof.
  apply (explicit_theme_applied (Sample.store_fails None) (Sample.config_of dark)
           (Sample.page_of Sample.with_indicator) 2 true); reflexivity.
Defined.

(** [applyThemeToContainer] never throws, whatever the store, the
    system signal and the configuration do; and under preference auto,
    when the storage layer fails, the class of the system preference is
    put on the container, or, when that signal is unavailable too, the
    container carries the light class and not the dark one. *)
Theorem theme_errors_absorbed (E : env) (config : JupyterLiteConfig) (p : page) :
  fst (applyThemeToContainer E config p) = Normal tt
  /\ (forall ind e,
        querySelector indicator_id (dom p) = Some ind ->
        theme config = Some auto ->
        storage_error E = Some e ->
        match prefers_dark E with
        | Some b =>
            contains (theme_class b)
              (classList (dom (snd (applyThemeToContainer E config p)))) = true
        | None =>
            contains jp_mod_light
              (classList (dom (snd (applyThemeToContainer E config p)))) = true
            /\ contains jp_mod_dark
                 (classList (dom (snd (applyThemeToContainer E config p)))) = false
        end).
Proof.
  split.
  - js_run. destruct (querySelector indicator_id (dom p)); [|reflexivity].
    destruct (theme config) as [[ | | ]|];
      destruct (is_true (showLoadingIndicator config)); simpl; try reflexivity;
        destruct (storage E) as [e|e|e|[s|]]; simpl;
          try destruct (JsString.truthy s); simpl;
            destruct (prefers_dark E); reflexivity.
  - intros ind e Hq Ht He. unfold storage_error in He. js_run.
    rewrite Hq, Ht.
    destruct (storage E) as [e0|e0|e0|v]; try discriminate;
      destruct (prefers_dark E) as [b|];
      destruct (is_true (showLoadingIndicator config)); simpl;
        rewrite ?contains_after_unhide by (try apply theme_class_not_hidden; discriminate);
        rewrite !classList_map_classes; unfold tokens_remove; simpl;
        repeat split;
        first [ apply contains_token_add_same
              | apply contains_token_remove_same
              | rewrite contains_token_remove_other by discriminate;
                apply contains_token_add_same ].
Qed.

(** C5, at the failing input: preference auto, the storage read fails,
    the system prefers light, and the container already carries the
    dark class.  The error is absorbed, but the handler only adds the
    light class: the container ends with both theme classes, the dark
    one included, instead of being classified by the system
    preference. *)
Theorem read_failure_keeps_stale_theme_class :
  theme (Sample.config_of auto) = Some auto
  /\ storage_error (Sample.store_fails (Some false)) = Some (Error "QuotaExceededError")
  /\ prefers_dark (Sample.store_fails (Some false)) = Some false
  /\ classList Scenario.dark_container = ["jupyterlite-container"; "jp-mod-dark"]
  /\ fst (applyThemeToContainer (Sample.store_fails (Some false))
            (Sample.config_of auto) (Sample.page_of Scenario.dark_container))
     = Normal tt
  /\ classList (dom (snd (applyThemeToContainer (Sample.store_fails (Some false))
                            (Sample.config_of auto)
                            (Sample.page_of Scenario.dark_container))))
     = ["jupyterlite-container"; "jp-mod-dark"; "jp-mod-light"].
Proof. repeat split; reflexivity. Qed.

End ThemeGuards.

(** ** The instance registry *)

Section RegistryFacts.
Import Js Registry.

Lemma map_get_set_same (k : string) (v : instance) (m : list (string * instance)) :
  map_get k (map_set k v m) = Some v.
Proof.
  induction m as [|[k' v'] m IH]; simpl.
  - now rewrite String.eqb_refl.
  - destruct (String.eqb k' k) eqn:Hk; simpl.
    + now rewrite String.eqb_refl.
    + now rewrite Hk.
Qed.

Lemma map_get_set_other (k k0 : string) (v : instance) (m : list (string * instance)) :
  k0 <> k -> map_get k0 (map_set k v m) = map_get k0 m.
Proof.
  intros Hne. induction m as [|[k' v'] m IH]; simpl.
  - destruct (String.eqb_spec k k0); [congruence | reflexivity].
  - destruct (String.eqb_spec k' k) as [->|Hk]; simpl.
    + destruct (String.eqb_spec k k0); [congruence | reflexivity].
    + now rewrite IH.
Qed.

Lemma length_map_set (k : string) (v : instance) (m : list (string * instance)) :
  List.length (map_set k v m) =
  if has_key k m then List.length m else S (List.length m).
Proof.
  unfold has_key. induction m as [|[k' v'] m IH]; simpl; [reflexivity|].
  destruct (String.eqb k' k); simpl; [reflexivity|].
  rewrite IH. now destruct (map_get k m).
Qed.

Lemma run_initializeKernelBridge (now : nat) (container : Dom.element) (p : page) :
  initializeKernelBridgeForContainer now container p =
  (Normal tt,
   set_instances
     (map_set (instanceId now container)
              {| inst_container := Dom.handle_of container;
                 inst_jupyter := window_jupyter p;
                 inst_bridge := window_jupyterKernelBridge p |})
     (set_console
        (fun l => (l ++ [ConsoleLog "JupyterLite Kernel Bridge initialized for container"])
                    ++ [ConsoleLog "Access via window.jupyter or inspect the container element"])
        p)).
Proof. reflexivity. Qed.

Lemma instanceId_of_id (now : nat) (container : Dom.element) :
  Dom.id_of container <> "" -> instanceId now container = Dom.id_of container.
Proof.
  unfold instanceId. simpl. destruct (Dom.id_of container); [congruence | reflexivity].
Qed.

Lemma run_cleanup (container : Dom.element) (p : page) :
  cleanupJupyterLiteInstance container p =
  (Normal tt,
   let p' := set_instances (delete_first (Dom.handle_of container)) p in
   if Nat.eqb (List.length (instances p')) 0 then delete_globals p' else p').
Proof.
  unfold cleanupJupyterLiteInstance, bind, gets, modify, when, ret. simpl.
  now destruct (List.length (delete_first (Dom.handle_of container) (instances p))).
Qed.

Lemma delete_first_absent (h : nat) (m : list (string * instance)) :
  existsb (fun kv => Nat.eqb (inst_container (snd kv)) h) m = false ->
  delete_first h m = m.
Proof.
  induction m as [|[k v] m IH]; simpl; [reflexivity|].
  destruct (Nat.eqb (inst_container v) h); simpl; [discriminate|].
  intros H. now rewrite IH.
Qed.

Lemma length_delete_first (h : nat) (m : list (string * instance)) :
  existsb (fun kv => Nat.eqb (inst_container (snd kv)) h) m = true ->
  S (List.length (delete_first h m)) = List.length m.
Proof.
  induction m as [|[k v] m IH]; simpl; [discriminate|].
  destruct (Nat.eqb (inst_container v) h); simpl; [reflexivity|].
  intros H. now rewrite IH.
Qed.

(** Cleaning up a container that is not registered, while other
    instances are, changes nothing. *)
Lemma cleanup_unregistered_among_others (container : Dom.element) (p : page) :
  registered container p = false -> instances p <> [] ->
  cleanupJupyterLiteInstance container p = (Normal tt, p).
Proof.
  unfold registered. intros Hr Hne. rewrite run_cleanup. cbv zeta.
  unfold set_instances at 1 2 3; simpl. rewrite (delete_first_absent _ _ Hr).
  destruct (instances p) eqn:Hi; [congruence|]. simpl.
  rewrite <- Hi. f_equal. now destruct p.
Qed.

(** Removing the last remaining instance empties the registry and
    clears both page-global handles. *)
Lemma cleanup_last_instance (container : Dom.element) (p : page) :
  registered container p = true -> List.length (instances p) = 1 ->
  instances (snd (cleanupJupyterLiteInstance container p)) = []
  /\ window_jupyter (snd (cleanupJupyterLiteInstance container p)) = None
  /\ window_jupyterKernelBridge (snd (cleanupJupyterLiteInstance container p)) = None.
Proof.
  unfold registered. intros Hr Hl. rewrite run_cleanup. cbv zeta. simpl.
  pose proof (length_delete_first _ _ Hr) as Hd. rewrite Hl in Hd.
  injection Hd as Hd. rewrite Hd. simpl.
  destruct (delete_first (Dom.handle_of container) (instances p)); [|discriminate].
  repeat split.
Qed.

(** Removing an instance while another one remains leaves the
    page-global handles alone. *)
Lemma cleanup_non_last_instance (container : Dom.element) (p : page) :
  registered container p = true -> 1 < List.length (instances p) ->
  S (List.length (instances (snd (cleanupJupyterLiteInstance container p))))
  = List.length (instances p)
  /\ window_jupyter (snd (cleanupJupyterLiteInstance container p)) = window_jupyter p
  /\ window_jupyterKernelBridge (snd (cleanupJupyterLiteInstance container p))
     = window_jupyterKernelBridge p.
Proof.
  unfold registered. intros Hr Hl. rewrite run_cleanup. cbv zeta. simpl.
  pose proof (length_delete_first _ _ Hr) as Hd.
  destruct (List.length (delete_first (Dom.handle_of container) (instances p))) eqn:Hn;
    [lia|]. simpl. rewrite Hn. repeat split. exact Hd.
Qed.

End RegistryFacts.

Section RegistryClaims.
Import Js Registry.

(** C3, as the specification words it, fails: registering the same
    container a second time completes normally instead of failing, and
    for a container without id the registry grows from one record to
    two. *)
Lemma duplicate_registration_accepted :
  registered Sample.anonymous Sample.once_registered = true
  /\ List.length (instances Sample.once_registered) = 1
  /\ fst (initializeKernelBridgeForContainer 1001 Sample.anonymous
            Sample.once_registered) = Normal tt
  /\ List.length (instances (snd (initializeKernelBridgeForContainer 1001
                                    Sample.anonymous Sample.once_registered))) = 2.
Proof. repeat split; reflexivity. Qed.

(** C3 (amended): registration never fails, also for a container that
    is already registered.  The call returns normally and leaves, under
    the key taken from the container's id (or from the clock when the id
    is empty), a record made from the container and the two page-global
    handles as they are at the call, replacing whatever was under that
    key; the registry keeps its size when the key was present and grows
    by one otherwise.  In particular a container with a non-empty id
    that registers again keeps the registry size and has its record
    overwritten. *)
Theorem registration_never_fails (now : nat) (container : Dom.element) (p : page) :
  fst (initializeKernelBridgeForContainer now container p) = Normal tt
  /\ map_get (instanceId now container)
             (instances (snd (initializeKernelBridgeForContainer now container p)))
     = Some {| inst_container := Dom.handle_of container;
               inst_jupyter := window_jupyter p;
               inst_bridge := window_jupyterKernelBridge p |}
  /\ List.length (instances (snd (initializeKernelBridgeForContainer now container p)))
     = (if has_key (instanceId now container) (instances p)
        then List.length (instances p) else S (List.length (instances p)))
  /\ (forall later,
        Dom.id_of container <> "" ->
        List.length
          (instances
             (snd (initializeKernelBridgeForContainer later container
                     (snd (initializeKernelBridgeForContainer now container p)))))
        = List.length (instances (snd (initializeKernelBridgeForContainer now container p)))).
Proof.
  repeat split.
  - rewrite run_initializeKernelBridge. simpl. apply map_get_set_same.
  - rewrite run_initializeKernelBridge. simpl. apply length_map_set.
  - intros later Hid. rewrite !run_initializeKernelBridge. simpl.
    rewrite (length_map_set (instanceId later container)).
    rewrite !(instanceId_of_id _ _ Hid).
    unfold has_key. now rewrite map_get_set_same.
Qed.

Lemma registration_never_fails_witness :
  List.length
    (instances
       (snd (initializeKernelBridgeForContainer 1001 Sample.with_indicator
               (snd (initializeKernelBridgeForContainer 1000 Sample.with_indicator
                       Sample.bridge_exposed)))))
  = List.length
      (instances (snd (initializeKernelBridgeForContainer 1000 Sample.with_indicator
                         Sample.bridge_exposed))).
Proof.
  apply (proj2 (proj2 (proj2 (registration_never_fails 1000 Sample.with_indicator
                                Sample.bridge_exposed))) 1001).
  discriminate.
Defined.

(** C2, at the failing input: the registry is empty, both page-global
    handles are set, and the container was never registered; the
    cleanup finds nothing to remove and yet clears both handles. *)
Theorem cleanup_unregistered_clears_globals :
  registered Sample.bare Sample.bridge_exposed = false
  /\ window_jupyter Sample.bridge_exposed = Some 41
  /\ window_jupyterKernelBridge Sample.bridge_exposed = Some 42
  /\ fst (cleanupJupyterLiteInstance Sample.bare Sample.bridge_exposed) = Normal tt
  /\ window_jupyter (snd (cleanupJupyterLiteInstance Sample.bare Sample.bridge_exposed))
     = None
  /\ window_jupyterKernelBridge
       (snd (cleanupJupyterLiteInstance Sample.bare Sample.bridge_exposed)) = None.
Proof. repeat split; reflexivity. Qed.

(** On an empty registry the cleanup always clears the handles, for any
    container. *)
Lemma cleanup_on_empty_registry (container : Dom.element) (p : page) :
  instances p = [] ->
  cleanupJupyterLiteInstance container p = (Normal tt, delete_globals p).
Proof.
  intros Hi. rewrite run_cleanup. cbv zeta. simpl. rewrite Hi. simpl.
  unfold set_instances, delete_globals. simpl. now rewrite Hi.
Qed.

(** A second cleanup right after the first one that emptied the
    registry leaves the page as the first one left it. *)
Lemma cleanup_twice (container : Dom.element) (p : page) :
  registered container p = true -> List.length (instances p) = 1 ->
  cleanupJupyterLiteInstance container
    (snd (cleanupJupyterLiteInstance container p))
  = (Normal tt, snd (cleanupJupyterLiteInstance container p)).
Proof.
  intros Hr Hl.
  destruct (cleanup_last_instance container p Hr Hl) as [Hi [Hj Hb]].
  rewrite (cleanup_on_empty_registry _ _ Hi). f_equal.
  destruct (snd (cleanupJupyterLiteInstance container p)); simpl in *.
  unfold delete_globals; simpl. now subst.
Qed.

End RegistryClaims.

(** ** Initialising the application in a container *)

Section ContainerClaims.
Import Js Dom Theme Container.

Lemma run_hide_indicator (p : page) :
  exists p1,
    hide_indicator p = (Normal (querySelector indicator_id (dom p)), p1)
    /\ timers p1 = timers p.
Proof.
  unfold hide_indicator, bind, gets, ret, node_add, modify.
  destruct (querySelector indicator_id (dom p)); simpl; eexists; split; reflexivity.
Qed.

Lemma classList_detach (h : nat) (e : element) :
  classList (detach h e) = classList e.
Proof. now destruct e. Qed.

Lemma theme_classes_removed (l : list string) :
  contains jp_mod_dark (tokens_remove [jp_mod_dark; jp_mod_light] l) = false
  /\ contains jp_mod_light (tokens_remove [jp_mod_dark; jp_mod_light] l) = false.
Proof.
  unfold tokens_remove; simpl. split.
  - apply contains_token_remove_false, contains_token_remove_same.
  - apply contains_token_remove_same.
Qed.

(** The timer callback never throws and leaves no theme class on the
    container, whatever the page looks like when it fires. *)
Lemma run_callback_clears_theme (loadingIndicator : option nat) (q : page) :
  fst (run_callback (DelayedCleanup loadingIndicator) q) = Normal tt
  /\ contains jp_mod_dark
       (classList (dom (snd (run_callback (DelayedCleanup loadingIndicator) q)))) = false
  /\ contains jp_mod_light
       (classList (dom (snd (run_callback (DelayedCleanup loadingIndicator) q)))) = false.
Proof.
  unfold run_callback, container_remove, bind, modify, ret.
  destruct loadingIndicator; simpl;
    rewrite classList_map_classes, ?classList_detach;
    (split; [reflexivity | apply theme_classes_removed]).
Qed.

(** C9: when the entry point of the application module completes
    normally, [initializeInContainer] completes normally and its last
    act is to schedule, 1000 ms later, the callback that removes both
    theme classes: once that callback has run, on whatever the page has
    become, the container carries neither jp-mod-dark nor
    jp-mod-light. *)
Theorem delayed_cleanup_removes_theme_classes
        (now : nat) (jupyterliteModule : entry_module)
        (config : JupyterLiteConfig) (p : page) :
  fst (invoke_entry jupyterliteModule (snd (hide_indicator p))) = Normal tt ->
  fst (initializeInContainer now jupyterliteModule config p) = Normal tt
  /\ exists earlier cb,
      timers (snd (initializeInContainer now jupyterliteModule config p))
      = earlier ++ [(1000, cb)]
      /\ forall q,
          fst (run_callback cb q) = Normal tt
          /\ contains jp_mod_dark (classList (dom (snd (run_callback cb q)))) = false
          /\ contains jp_mod_light (classList (dom (snd (run_callback cb q)))) = false.
Proof.
  destruct (run_hide_indicator p) as [p1 [Hhide _]].
  rewrite Hhide. simpl. intros Hentry.
  unfold initializeInContainer, try_catch, bind. rewrite Hhide.
  destruct (invoke_entry jupyterliteModule p1) as [[[]|e] p2];
    simpl in Hentry; [clear Hentry | discriminate].
  unfold when, setTimeout, modify, gets, ret.
  destruct (bridge_requested config); simpl;
    (split; [reflexivity|]); eexists; eexists;
      (split; [reflexivity | apply run_callback_clears_theme]).
Qed.

Lemma delayed_cleanup_removes_theme_classes_witness :
  fst (initializeInContainer 1000
         {| main := Some (container_add jp_mod_dark); default := None |}
         (Sample.config_of dark) (Sample.page_of Sample.with_indicator)) = Normal tt
  /\ exists earlier cb,
      timers (snd (initializeInContainer 1000
                     {| main := Some (container_add jp_mod_dark); default := None |}
                     (Sample.config_of dark) (Sample.page_of Sample.with_indicator)))
      = earlier ++ [(1000, cb)]
      /\ forall q,
          fst (run_callback cb q) = Normal tt
          /\ contains jp_mod_dark (classList (dom (snd (run_callback cb q)))) = false
          /\ contains jp_mod_light (classList (dom (snd (run_callback cb q)))) = false.
Proof.
  apply (delayed_cleanup_removes_theme_classes 1000
           {| main := Some (container_add jp_mod_dark); default := None |}
           (Sample.config_of dark) (Sample.page_of Sample.with_indicator)).
  reflexivity.
Defined.

(** A failing entry point leaves no cleanup behind: the error is logged
    and rethrown before any timer is set. *)
Lemma failed_entry_sets_no_timer
      (now : nat) (jupyterliteModule : entry_module)
      (config : JupyterLiteConfig) (p : page) (e : exn) :
  fst (invoke_entry jupyterliteModule (snd (hide_indicator p))) = Throw e ->
  fst (initializeInContainer now jupyterliteModule config p) = Throw e
  /\ timers (snd (initializeInContainer now jupyterliteModule config p))
     = timers (snd (invoke_entry jupyterliteModule (snd (hide_indicator p)))).
Proof.
  destruct (run_hide_indicator p) as [p1 [Hhide _]].
  rewrite Hhide. simpl. intros Hentry.
  unfold initializeInContainer, try_catch, bind. rewrite Hhide.
  destruct (invoke_entry jupyterliteModule p1) as [[[]|e'] p2];
    simpl in Hentry; [discriminate|]. injection Hentry as ->.
  split; reflexivity.
Qed.

End ContainerClaims.

(** ** Loading scripts and components *)

Section ScriptClaims.
Import Js Loader.

Lemma run_loadScript (N : network) (url : string) (p : page) :
  loadScript N url p =
  (if script_loads N url then Normal tt else Throw (load_error url),
   set_head (fun h => h ++ [{| src := url; async := true |}]) p).
Proof.
  unfold loadScript, loadScript_append, loadScript_settle, bind, modify, ret, throw.
  now destruct (script_loads N url).
Qed.

(** C7: each call of [loadScript] appends exactly one script element,
    for its URL, to the document head, also when the head already holds
    a script with that URL; the call resolves when the browser reports
    the load, and when the browser reports an error it rejects with an
    error whose message contains the URL. *)
Theorem loadScript_appends_once (N : network) (url : string) (p : page) :
  head (snd (loadScript N url p)) = head p ++ [{| src := url; async := true |}]
  /\ List.length (head (snd (loadScript N url p))) = S (List.length (head p))
  /\ (forall N',
        head (snd (loadScript N' url (snd (loadScript N url p))))
        = head p ++ [{| src := url; async := true |}; {| src := url; async := true |}])
  /\ (script_loads N url = true -> fst (loadScript N url p) = Normal tt)
  /\ (script_loads N url = false ->
      exists message,
        fst (loadScript N url p) = Throw (Error message)
        /\ message = ("Failed to load script: " ++ url)%string
        /\ JsString.includes message url = true).
Proof.
  rewrite run_loadScript. simpl. repeat split.
  - rewrite length_app. simpl. lia.
  - intros N'. rewrite run_loadScript. simpl. now rewrite <- app_assoc.
  - now intros ->.
  - intros ->. eexists. split; [reflexivity|]. split; [reflexivity|].
    apply includes_iff. exists "Failed to load script: ", "".
    now rewrite append_empty_r.
Qed.

Lemma loadScript_appends_once_witness :
  fst (loadScript Sample.browser "/extensions/@my/extension/remoteEntry.js"
         (Sample.page_of Sample.bare)) = Normal tt
  /\ exists message,
      fst (loadScript Sample.browser "/extensions/@my/broken/missing.js"
             (Sample.page_of Sample.bare)) = Throw (Error message)
      /\ message = "Failed to load script: /extensions/@my/broken/missing.js"
      /\ JsString.includes message "/extensions/@my/broken/missing.js" = true.
Proof.
  split.
  - apply (proj1 (proj2 (proj2 (proj2
             (loadScript_appends_once Sample.browser
                "/extensions/@my/extension/remoteEntry.js"
                (Sample.page_of Sample.bare)))))).
    reflexivity.
  - apply (proj2 (proj2 (proj2 (proj2
             (loadScript_appends_once Sample.browser
                "/extensions/@my/broken/missing.js"
                (Sample.page_of Sample.bare)))))).
    reflexivity.
Defined.

(** C10, as the specification words it, fails on a page where nothing
    has created [window._JUPYTERLAB]: the script has loaded, the sharing
    scope has initialised and no registration object is exposed under
    the declared name, yet the lookup itself throws, [loadComponent]
    rejects with that error, and the extension phase records and logs a
    failure for the bundle. *)
Lemma loadComponent_missing_registry_rejects :
  script_loads Scenario.no_registry "/extensions/@my/extension/remoteEntry.js" = true
  /\ init_sharing_fails Scenario.no_registry = None
  /\ JUPYTERLAB Scenario.no_registry = None
  /\ fst (loadComponent Scenario.no_registry "/extensions/@my/extension/remoteEntry.js"
            "@my/extension" (Sample.page_of Sample.bare))
     = Throw (Error "Cannot read properties of undefined (reading '@my/extension')")
  /\ fst (load_extensions Scenario.no_registry [0; 0] Scenario.only_good_extension
            (Sample.page_of Sample.bare))
     = Normal (Some [Rejected
                       (Error "Cannot read properties of undefined (reading '@my/extension')")])
  /\ console (snd (load_extensions Scenario.no_registry [0; 0]
                     Scenario.only_good_extension (Sample.page_of Sample.bare)))
     = [ConsoleError "Failed to load extension:"
          (Error "Cannot read properties of undefined (reading '@my/extension')")].
Proof. repeat split; reflexivity. Qed.

(** C10 (amended): when the script has loaded, the sharing scope
    initialises, and [window._JUPYTERLAB] exists but holds nothing under
    the declared name, [loadComponent] resolves; the only federation
    call it makes is the sharing initialisation, no [init] is invoked,
    nothing is logged, and the activation outcome of such a descriptor
    is a success. *)
Theorem loadComponent_without_registration
        (N : network) (url scope : string) (p : page)
        (registry : string -> option federated_container) :
  script_loads N url = true ->
  init_sharing_fails N = None ->
  JUPYTERLAB N = Some registry ->
  registry scope = None ->
  fst (loadComponent N url scope p) = Normal tt
  /\ federation (snd (loadComponent N url scope p))
     = federation p ++ [CallInitSharing "default"]
  /\ console (snd (loadComponent N url scope p)) = console p
  /\ (forall base data,
        component_url base data = url -> name data = scope ->
        outcome N base data = Fulfilled).
Proof.
  intros Hload Hshare Hreg Hnone.
  unfold loadComponent, webpack_init_sharing, federation_do, bind, modify, ret.
  rewrite run_loadScript, Hload, Hshare. unfold registry_lookup.
  rewrite Hreg, Hnone. simpl. repeat split.
  intros base data Hurl Hname. unfold outcome, loadScript_settle, registry_lookup.
  now rewrite Hurl, Hname, Hload, Hshare, Hreg, Hnone.
Qed.

Lemma loadComponent_without_registration_witness :
  fst (loadComponent Sample.silent_browser "/extensions/@my/extension/remoteEntry.js"
         "@my/extension" (Sample.page_of Sample.bare)) = Normal tt
  /\ federation (snd (loadComponent Sample.silent_browser
                        "/extensions/@my/extension/remoteEntry.js"
                        "@my/extension" (Sample.page_of Sample.bare)))
     = [CallInitSharing "default"]
  /\ outcome Sample.silent_browser "/extensions" Sample.good_extension = Fulfilled.
Proof.
  destruct (loadComponent_without_registration Sample.silent_browser
              "/extensions/@my/extension/remoteEntry.js" "@my/extension"
              (Sample.page_of Sample.bare) (fun _ => None)
              eq_refl eq_refl eq_refl eq_refl)
    as [H1 [H2 [_ H4]]].
  split; [exact H1|]. split; [exact H2|].
  apply H4; reflexivity.
Defined.

End ScriptClaims.

(** ** The extension-loading phase *)

Section TaskFacts.
Import Js Loader.

Lemma set_head_nil (p : page) : set_head (fun h => h ++ []) p = p.
Proof. unfold set_head. rewrite app_nil_r. now destruct p. Qed.

Lemma set_federation_nil (p : page) : set_federation (fun l => l ++ []) p = p.
Proof. unfold set_federation. rewrite app_nil_r. now destruct p. Qed.

(** The synchronous part of the fan-out: one task and one script
    element per descriptor, in the order of the list. *)
Lemma run_spawn_all (base : string) (l : list descriptor) (p : page) :
  spawn_all base l p =
  (Normal (map (initial_task base) l),
   set_head (fun h => h ++ map (script_of base) l) p).
Proof.
  revert p. induction l as [|data rest IH]; intros p; simpl.
  - unfold ret. now rewrite set_head_nil.
  - unfold bind, spawn, loadScript_append, modify, ret. simpl.
    rewrite IH. unfold set_head; simpl. now rewrite <- app_assoc.
Qed.

Lemma run_resume_at (N : network) (i : nat) (ts : list task) (p : page) :
  exists calls,
    resume_at N i ts p =
    (Normal (step_at N i ts), set_federation (fun l => l ++ calls) p).
Proof.
  revert i. induction ts as [|t rest IH]; intros i.
  - exists []. destruct i; simpl; unfold ret; now rewrite set_federation_nil.
  - destruct i as [|j]; simpl.
    + exists (snd (next N t)). reflexivity.
    + destruct (IH j) as [calls Hc]. exists calls.
      unfold bind. now rewrite Hc.
Qed.

Lemma run_run (N : network) (schedule : list nat) (ts : list task) (p : page) :
  exists calls,
    run N schedule ts p =
    (Normal (run_tasks N schedule ts), set_federation (fun l => l ++ calls) p).
Proof.
  revert ts p. induction schedule as [|i later IH]; intros ts p; simpl.
  - exists []. unfold ret. now rewrite set_federation_nil.
  - destruct (run_resume_at N i ts p) as [c1 H1].
    destruct (IH (step_at N i ts) (set_federation (fun l => l ++ c1) p)) as [c2 H2].
    exists (c1 ++ c2). unfold bind. rewrite H1, H2.
    unfold set_federation; simpl. now rewrite <- app_assoc.
Qed.

(** Reporting never throws and only writes to the console. *)
Lemma run_report_failures (extensions : list settled) (p : page) :
  exists entries,
    report_failures extensions p =
    (Normal tt, set_console (fun c => c ++ entries) p).
Proof.
  revert p. induction extensions as [|[|reason] rest IH]; intros p; simpl.
  - exists []. unfold ret, set_console. rewrite app_nil_r. now destruct p.
  - apply IH.
  - destruct (IH (set_console (fun l => l ++ [ConsoleError "Failed to load extension:" reason]) p))
      as [entries He].
    exists (ConsoleError "Failed to load extension:" reason :: entries).
    unfold bind, console_error, modify. rewrite He.
    unfold set_console; simpl. now rewrite <- app_assoc.
Qed.

(** The phase, computed: it completes normally with what
    [Promise.allSettled] holds after the schedule, and the head has
    received the scripts of all descriptors. *)
Lemma run_load_extensions (N : network) (schedule : list nat)
      (configData : configuration) (p : page) :
  fst (load_extensions N schedule configData p)
  = Normal (allSettled (run_tasks N schedule
                          (map (initial_task (labExtensionUrl configData))
                               (extensionData configData))))
  /\ head (snd (load_extensions N schedule configData p))
     = head p ++ map (script_of (labExtensionUrl configData)) (extensionData configData).
Proof.
  unfold load_extensions, bind. rewrite run_spawn_all.
  destruct (run_run N schedule
              (map (initial_task (labExtensionUrl configData)) (extensionData configData))
              (set_head (fun h => h ++ map (script_of (labExtensionUrl configData))
                                      (extensionData configData)) p))
    as [calls Hrun].
  rewrite Hrun.
  destruct (allSettled _) as [extensions|]; [|split; reflexivity].
  destruct (run_report_failures extensions
              (set_federation (fun l => l ++ calls)
                 (set_head (fun h => h ++ map (script_of (labExtensionUrl configData))
                                         (extensionData configData)) p)))
    as [entries Hrep].
  rewrite Hrep. split; reflexivity.
Qed.

Lemma nth_error_step_at (N : network) (j : nat) (ts : list task) (i : nat) :
  nth_error (step_at N j ts) i =
  if Nat.eqb j i then option_map (step N) (nth_error ts i) else nth_error ts i.
Proof.
  revert j i. induction ts as [|t rest IH]; intros j i.
  - destruct j as [|j], i as [|i]; simpl; try reflexivity.
    now destruct (Nat.eqb j i).
  - destruct j as [|j], i as [|i]; simpl; try reflexivity. apply IH.
Qed.

Lemma deliveries_cons (j : nat) (later : list nat) (i : nat) :
  deliveries (j :: later) i =
  if Nat.eqb j i then S (deliveries later i) else deliveries later i.
Proof.
  unfold deliveries. simpl.
  destruct (Nat.eq_dec j i) as [->|Hne].
  - now rewrite Nat.eqb_refl.
  - apply Nat.eqb_neq in Hne. now rewrite Hne.
Qed.

(** Tasks do not interfere: after any schedule, the task at position
    [i] is the initial one advanced by the settlements delivered to it,
    however those are interleaved with the others. *)
Lemma nth_error_run_tasks (N : network) (schedule : list nat) (ts : list task) (i : nat) :
  nth_error (run_tasks N schedule ts) i =
  option_map (Nat.iter (deliveries schedule i) (step N)) (nth_error ts i).
Proof.
  revert ts. induction schedule as [|j later IH]; intros ts; cbn [run_tasks].
  - now destruct (nth_error ts i).
  - rewrite IH, nth_error_step_at, deliveries_cons.
    destruct (Nat.eqb j i); [|reflexivity].
    destruct (nth_error ts i); cbn [option_map]; [|reflexivity].
    now rewrite Nat.iter_succ_r.
Qed.

Lemma iter_step_done (N : network) (k : nat) (r : settled) :
  Nat.iter k (step N) (Done r) = Done r.
Proof. induction k as [|k IH]; simpl; [reflexivity | now rewrite IH]. Qed.

(** The task machine follows [loadComponent]: an attempt that has
    received the settlements of all its awaits is settled, with the
    completion of the function run in sequence. *)
Lemma awaited_steps (N : network) (base : string) (data : descriptor) :
  Nat.iter (awaited N base data) (step N) (initial_task base data)
  = Done (outcome N base data).
Proof.
  unfold initial_task, outcome, awaited, step.
  destruct (loadScript_settle N (component_url base data)) eqn:Hs; simpl;
    rewrite ?Hs; simpl; [|reflexivity].
  destruct (init_sharing_fails N) eqn:Hi; simpl; rewrite ?Hs; simpl;
    rewrite ?Hi; simpl; [reflexivity|].
  destruct (registry_lookup N (name data)) as [[c|]|e] eqn:Hj; simpl;
    rewrite ?Hs; simpl; rewrite ?Hi, ?Hj; simpl; try reflexivity.
  now destruct (init_fails c).
Qed.

Lemma loadComponent_outcome (N : network) (base : string) (data : descriptor)
      (p : page) :
  fst (loadComponent N (component_url base data) (name data) p)
  = match outcome N base data with
    | Fulfilled => Normal tt
    | Rejected e => Throw e
    end.
Proof.
  unfold loadComponent, loadScript, loadScript_append, webpack_init_sharing,
    container_init, federation_do, outcome, bind, modify, ret, throw.
  destruct (loadScript_settle N (component_url base data)); simpl; [|reflexivity].
  destruct (init_sharing_fails N); simpl; [reflexivity|].
  destruct (registry_lookup N (name data)) as [[c|]|e]; simpl; try reflexivity.
  now destruct (init_fails c).
Qed.

(** Once its settlements are in, an attempt stays settled. *)
Lemma step_settles (N : network) (base : string) (data : descriptor) (k : nat) :
  awaited N base data <= k ->
  Nat.iter k (step N) (initial_task base data) = Done (outcome N base data).
Proof.
  intros Hk. replace k with ((k - awaited N base data) + awaited N base data) by lia.
  now rewrite Nat.iter_add, awaited_steps, iter_step_done.
Qed.

(** Before that, it is still suspended. *)
Lemma step_pending (N : network) (base : string) (data : descriptor) (k : nat) :
  k < awaited N base data ->
  result_of (Nat.iter k (step N) (initial_task base data)) = None.
Proof.
  unfold initial_task, awaited, step.
  destruct (loadScript_settle N (component_url base data)) eqn:Hs.
  - destruct (init_sharing_fails N) eqn:Hi;
      [|destruct (registry_lookup N (name data)) as [[c|]|e] eqn:Hj];
      intros Hk; destruct k as [|[|[|k]]]; try lia; simpl;
        rewrite ?Hs; simpl; rewrite ?Hi, ?Hj; reflexivity.
  - intros Hk. destruct k as [|k]; [reflexivity | lia].
Qed.

(** Whenever an attempt has settled, it has settled to its own outcome. *)
Lemma step_result (N : network) (base : string) (data : descriptor) (k : nat)
      (r : settled) :
  result_of (Nat.iter k (step N) (initial_task base data)) = Some r ->
  r = outcome N base data.
Proof.
  destruct (le_lt_dec (awaited N base data) k) as [Hk|Hk].
  - rewrite step_settles by exact Hk. simpl. congruence.
  - rewrite step_pending by exact Hk. discriminate.
Qed.

Lemma allSettled_map_Done (rs : list settled) : allSettled (map Done rs) = Some rs.
Proof. induction rs as [|r rs IH]; simpl; [reflexivity | now rewrite IH]. Qed.

Lemma allSettled_Some (ts : list task) (rs : list settled) :
  allSettled ts = Some rs -> ts = map Done rs.
Proof.
  revert rs. induction ts as [|t ts IH]; intros rs; simpl.
  - now intros [= <-].
  - destruct t; try discriminate.
    destruct (allSettled ts) as [rs'|]; simpl; [|discriminate].
    intros [= <-]. simpl. now rewrite (IH rs' eq_refl).
Qed.

Lemma allSettled_pending (ts : list task) (i : nat) (t : task) :
  nth_error ts i = Some t -> result_of t = None -> allSettled ts = None.
Proof.
  intros Hn Hr. destruct (allSettled ts) as [rs|] eqn:Ha; [|reflexivity].
  apply allSettled_Some in Ha. subst ts.
  rewrite nth_error_map in Hn. destruct (nth_error rs i); simpl in Hn; [|discriminate].
  injection Hn as <-. discriminate.
Qed.

(** The outcomes that [Promise.allSettled] hands back are the
    descriptors' own outcomes, in the order of the list. *)
Lemma settled_outcomes (N : network) (schedule : list nat) (base : string)
      (l : list descriptor) (rs : list settled) :
  allSettled (run_tasks N schedule (map (initial_task base) l)) = Some rs ->
  rs = map (outcome N base) l.
Proof.
  intros Ha. apply allSettled_Some in Ha. apply nth_error_ext. intros n.
  pose proof (nth_error_run_tasks N schedule (map (initial_task base) l) n) as Hn.
  rewrite Ha, !nth_error_map in Hn. rewrite nth_error_map.
  destruct (nth_error l n) as [data|], (nth_error rs n) as [r|];
    simpl in *; try discriminate; [|reflexivity].
  injection Hn as Hn. f_equal.
  apply (step_result N base data (deliveries schedule n)).
  now rewrite <- Hn.
Qed.

(** A schedule that delivers to every attempt the settlements it waits
    for lets all of them finish, failures included. *)
Lemma fair_schedule_settles (N : network) (schedule : list nat) (base : string)
      (l : list descriptor) :
  (forall i data, nth_error l i = Some data ->
                  awaited N base data <= deliveries schedule i) ->
  allSettled (run_tasks N schedule (map (initial_task base) l))
  = Some (map (outcome N base) l).
Proof.
  intros Hfair.
  replace (run_tasks N schedule (map (initial_task base) l))
    with (map Done (map (outcome N base) l)); [apply allSettled_map_Done|].
  apply nth_error_ext. intros n.
  rewrite nth_error_run_tasks, !nth_error_map.
  destruct (nth_error l n) as [data|] eqn:Hd; simpl; [|reflexivity].
  rewrite step_settles; [reflexivity|]. now apply Hfair.
Qed.

(** While one attempt still waits for a settlement, the wait goes on. *)
Lemma pending_task_blocks (N : network) (schedule : list nat) (base : string)
      (l : list descriptor) (i : nat) (data : descriptor) :
  nth_error l i = Some data ->
  deliveries schedule i < awaited N base data ->
  allSettled (run_tasks N schedule (map (initial_task base) l)) = None.
Proof.
  intros Hd Hlt.
  apply (allSettled_pending _ i
           (Nat.iter (deliveries schedule i) (step N) (initial_task base data))).
  - now rewrite nth_error_run_tasks, nth_error_map, Hd.
  - now apply step_pending.
Qed.

(** A failure of the sharing scope is not fatal to the call: it is the
    rejection of every attempt whose script has loaded. *)
Lemma outcome_when_sharing_fails (N : network) (base : string) (data : descriptor)
      (e : exn) :
  init_sharing_fails N = Some e ->
  outcome N base data =
  if script_loads N (component_url base data) then Rejected e
  else Rejected (load_error (component_url base data)).
Proof.
  intros He. unfold outcome, loadScript_settle.
  destruct (script_loads N (component_url base data)); [|reflexivity].
  now rewrite He.
Qed.

End TaskFacts.

Section ExtensionClaims.
Import Js Loader.

Example one_failure_among_two :
  load_extensions Sample.browser [1; 0; 0; 0] Sample.two_extensions
                  (Sample.page_of Sample.bare)
  = (Normal (Some [Fulfilled;
                   Rejected (Error "Failed to load script: /extensions/@my/broken/missing.js")]),
     {| dom := Sample.bare;
        head := [{| src := "/extensions/@my/extension/remoteEntry.js"; async := true |};
                 {| src := "/extensions/@my/broken/missing.js"; async := true |}];
        console := [ConsoleError "Failed to load extension:"
                      (Error "Failed to load script: /extensions/@my/broken/missing.js")];
        storage_io := [];
        instances := [];
        window_jupyter := None;
        window_jupyterKernelBridge := None;
        timers := [];
        federation := [CallInitSharing "default"; CallContainerInit "@my/extension"] |}).
Proof. reflexivity. Qed.

Example still_waiting_for_init :
  fst (load_extensions Sample.browser [1; 0; 0] Sample.two_extensions
                       (Sample.page_of Sample.bare)) = Normal None.
Proof. reflexivity. Qed.

(** C1: the extension-loading phase of [loadJupyterLiteBootstrap], for
    every list of descriptors, every behaviour of the browser and every
    interleaving of the settlements.  It never rejects (so it rejects at
    most when the sharing scope fails; in fact not even then).  Every
    descriptor is attempted: its script element is appended to the head
    at the start, in list order.  The phase resumes only when every
    attempt has settled, and then holds one outcome per descriptor, each
    being that descriptor's own outcome; as long as one attempt still
    waits for a settlement the phase stays suspended.  And whenever each
    attempt has been delivered the settlements it waits for, the phase
    resumes with all outcomes, whichever of the attempts failed. *)
Theorem extensions_settle_independently
        (N : network) (schedule : list nat) (configData : configuration) (p : page) :
  (exists r, fst (load_extensions N schedule configData p) = Normal r)
  /\ head (snd (load_extensions N schedule configData p))
     = head p ++ map (script_of (labExtensionUrl configData)) (extensionData configData)
  /\ (forall rs,
        fst (load_extensions N schedule configData p) = Normal (Some rs) ->
        List.length rs = List.length (extensionData configData)
        /\ rs = map (outcome N (labExtensionUrl configData)) (extensionData configData)
        /\ run_tasks N schedule
             (map (initial_task (labExtensionUrl configData)) (extensionData configData))
           = map Done rs)
  /\ (forall i data,
        nth_error (extensionData configData) i = Some data ->
        deliveries schedule i < awaited N (labExtensionUrl configData) data ->
        fst (load_extensions N schedule configData p) = Normal None)
  /\ ((forall i data,
         nth_error (extensionData configData) i = Some data ->
         awaited N (labExtensionUrl configData) data <= deliveries schedule i) ->
      fst (load_extensions N schedule configData p)
      = Normal (Some (map (outcome N (labExtensionUrl configData))
                          (extensionData configData)))).
Proof.
  destruct (run_load_extensions N schedule configData p) as [Hfst Hhead].
  rewrite Hfst. split; [eexists; reflexivity|]. split; [exact Hhead|].
  split; [|split].
  - intros rs [= Hrs].
    pose proof (settled_outcomes _ _ _ _ _ Hrs) as Hout.
    split; [|split].
    + rewrite Hout. apply length_map.
    + exact Hout.
    + now apply allSettled_Some.
  - intros i data Hd Hlt. f_equal.
    now apply (pending_task_blocks N schedule _ _ i data).
  - intros Hfair. f_equal. now apply fair_schedule_settles.
Qed.

Lemma extensions_settle_independently_witness :
  fst (load_extensions Sample.browser [1; 0; 0; 0] Sample.two_extensions
                       (Sample.page_of Sample.bare))
  = Normal (Some [Fulfilled;
                  Rejected (Error "Failed to load script: /extensions/@my/broken/missing.js")]).
Proof.
  apply (proj2 (proj2 (proj2 (proj2
           (extensions_settle_independently Sample.browser [1; 0; 0; 0]
              Sample.two_extensions (Sample.page_of Sample.bare)))))).
  intros i data Hd. destruct i as [|[|i]].
  - injection Hd as <-. vm_compute. lia.
  - injection Hd as <-. vm_compute. lia.
  - destruct i; discriminate Hd.
Defined.

End ExtensionClaims.

(* ================================================================== *)
(** * Further properties of the loader *)
(* ================================================================== *)

(** ** The registry as a map *)

Section RegistryMore.
Import Js Registry View.

Lemma instances_after_cleanup (container : Dom.element) (p : page) :
  instances (snd (cleanupJupyterLiteInstance container p))
  = delete_first (Dom.handle_of container) (instances p).
Proof.
  rewrite run_cleanup. cbv zeta. simpl.
  now destruct (Nat.eqb _ 0).
Qed.

Lemma instances_after_register (now : nat) (container : Dom.element) (p : page) :
  instances (snd (initializeKernelBridgeForContainer now container p))
  = map_set (instanceId now container)
            {| inst_container := Dom.handle_of container;
               inst_jupyter := window_jupyter p;
               inst_bridge := window_jupyterKernelBridge p |}
            (instances p).
Proof. now rewrite run_initializeKernelBridge. Qed.

Lemma globals_after_register (now : nat) (container : Dom.element) (p : page) :
  window_jupyter (snd (initializeKernelBridgeForContainer now container p))
  = window_jupyter p
  /\ window_jupyterKernelBridge (snd (initializeKernelBridgeForContainer now container p))
     = window_jupyterKernelBridge p.
Proof. now rewrite run_initializeKernelBridge. Qed.

Lemma globals_after_cleanup (container : Dom.element) (p : page) :
  window_jupyter (snd (cleanupJupyterLiteInstance container p))
  = match delete_first (Dom.handle_of container) (instances p) with
    | [] => None
    | _ :: _ => window_jupyter p
    end
  /\ window_jupyterKernelBridge (snd (cleanupJupyterLiteInstance container p))
     = match delete_first (Dom.handle_of container) (instances p) with
       | [] => None
       | _ :: _ => window_jupyterKernelBridge p
       end.
Proof.
  rewrite run_cleanup. cbv zeta. simpl.
  now destruct (delete_first (Dom.handle_of container) (instances p)).
Qed.

Lemma map_get_delete_first (h : nat) (k : string) (v : instance)
      (m : list (string * instance)) :
  map_get k m = Some v -> inst_container v <> h ->
  map_get k (delete_first h m) = Some v.
Proof.
  intros Hget Hne. induction m as [|[k' v'] m IH]; simpl in *; [discriminate|].
  destruct (Nat.eqb_spec (inst_container v') h) as [Hh|Hh].
  - destruct (String.eqb k' k); [|exact Hget].
    injection Hget as <-. contradiction.
  - simpl. destruct (String.eqb k' k); [exact Hget | now apply IH].
Qed.

Lemma delete_first_map_set_fresh (h : nat) (k : string) (v : instance)
      (m : list (string * instance)) :
  inst_container v = h ->
  existsb (fun kv => Nat.eqb (inst_container (snd kv)) h) m = false ->
  has_key k m = false ->
  delete_first h (map_set k v m) = m.
Proof.
  intros Hv. unfold has_key.
  induction m as [|[k' v'] m IH]; simpl; intros Hreg Hkey.
  - now rewrite Hv, Nat.eqb_refl.
  - apply orb_false_iff in Hreg. destruct Hreg as [Hh Hreg].
    destruct (String.eqb k' k); [discriminate|]. simpl.
    rewrite Hh. now rewrite IH.
Qed.

Lemma map_set_set (k : string) (v1 v2 : instance) (m : list (string * instance)) :
  map_set k v2 (map_set k v1 m) = map_set k v2 m.
Proof.
  induction m as [|[k' v'] m IH]; simpl.
  - now rewrite String.eqb_refl.
  - destruct (String.eqb k' k) eqn:Hk; simpl.
    + now rewrite String.eqb_refl.
    + now rewrite Hk, IH.
Qed.

Lemma not_registered_map_set (h : nat) (k : string) (v : instance)
      (m : list (string * instance)) :
  inst_container v <> h ->
  existsb (fun kv => Nat.eqb (inst_container (snd kv)) h) m = false ->
  existsb (fun kv => Nat.eqb (inst_container (snd kv)) h) (map_set k v m) = false.
Proof.
  intros Hv. apply Nat.eqb_neq in Hv.
  induction m as [|[k' v'] m IH]; simpl; intros Hreg.
  - now rewrite Hv.
  - apply orb_false_iff in Hreg. destruct Hreg as [Hh Hreg].
    destruct (String.eqb k' k); simpl.
    + now rewrite Hv.
    + now rewrite Hh, IH.
Qed.

Lemma registered_map_set_own (h : nat) (k : string) (v : instance)
      (m : list (string * instance)) :
  inst_container v = h ->
  existsb (fun kv => Nat.eqb (inst_container (snd kv)) h) (map_set k v m) = true.
Proof.
  intros Hv. induction m as [|[k' v'] m IH]; simpl.
  - now rewrite Hv, Nat.eqb_refl.
  - destruct (String.eqb k' k); simpl.
    + now rewrite Hv, Nat.eqb_refl.
    + rewrite IH. apply orb_true_r.
Qed.

Lemma records_of_delete_first (h : nat) (m : list (string * instance)) :
  records_of h (delete_first h m) = pred (records_of h m).
Proof.
  induction m as [|[k' v'] m IH]; simpl; [reflexivity|].
  destruct (Nat.eqb (inst_container v') h) eqn:Hh; simpl; [reflexivity|].
  now rewrite Hh.
Qed.

Lemma records_of_delete_first_other (h h' : nat) (m : list (string * instance)) :
  h' <> h -> records_of h' (delete_first h m) = records_of h' m.
Proof.
  intros Hne. induction m as [|[k' v'] m IH]; simpl; [reflexivity|].
  destruct (Nat.eqb_spec (inst_container v') h) as [Hh|Hh]; simpl.
  - destruct (Nat.eqb_spec (inst_container v') h'); [congruence | reflexivity].
  - now rewrite IH.
Qed.

Lemma registered_records (h : nat) (m : list (string * instance)) :
  existsb (fun kv => Nat.eqb (inst_container (snd kv)) h) m
  = Nat.ltb 0 (records_of h m).
Proof.
  induction m as [|[k' v'] m IH]; simpl; [reflexivity|].
  destruct (Nat.eqb (inst_container v') h); simpl; [reflexivity | exact IH].
Qed.

Lemma decimal_injective (a b : nat) : decimal a = decimal b -> a = b.
Proof.
  unfold decimal. intros H.
  apply (f_equal DecimalString.NilEmpty.uint_of_string) in H.
  rewrite !DecimalString.NilEmpty.usu in H. injection H as H.
  apply (f_equal Nat.of_uint) in H.
  now rewrite !DecimalNat.Unsigned.of_to in H.
Qed.

End RegistryMore.

Section RegistryExtras.
Import Js Registry View.

(** Cleaning up one container leaves the record of every other
    container where it was: a key whose record holds another container
    still maps to the same record. *)
Theorem cleanup_keeps_other_records
        (container : Dom.element) (p : page) (k : string) (v : instance) :
  map_get k (instances p) = Some v ->
  inst_container v <> Dom.handle_of container ->
  map_get k (instances (snd (cleanupJupyterLiteInstance container p))) = Some v.
Proof.
  intros Hget Hne. rewrite instances_after_cleanup.
  now apply map_get_delete_first.
Qed.

Lemma cleanup_keeps_other_records_witness :
  map_get "jupyter-root"
          (instances (snd (cleanupJupyterLiteInstance Sample.anonymous
                             Scenario.two_instances)))
  = Some {| inst_container := 0; inst_jupyter := Some 41; inst_bridge := Some 42 |}.
Proof.
  apply (cleanup_keeps_other_records Sample.anonymous Scenario.two_instances
           "jupyter-root"
           {| inst_container := 0; inst_jupyter := Some 41; inst_bridge := Some 42 |}).
  - reflexivity.
  - simpl. discriminate.
Defined.

(** Registering a container that was not registered, under a key that
    was free, and cleaning it up again gives back the registry as it
    was; the two page-global handles survive exactly when another
    instance is left. *)
Theorem register_then_cleanup_restores
        (now : nat) (container : Dom.element) (p : page) :
  registered container p = false ->
  has_key (instanceId now container) (instances p) = false ->
  instances (snd (cleanupJupyterLiteInstance container
                    (snd (initializeKernelBridgeForContainer now container p))))
  = instances p
  /\ window_jupyter
       (snd (cleanupJupyterLiteInstance container
               (snd (initializeKernelBridgeForContainer now container p))))
     = match instances p with [] => None | _ :: _ => window_jupyter p end
  /\ window_jupyterKernelBridge
       (snd (cleanupJupyterLiteInstance container
               (snd (initializeKernelBridgeForContainer now container p))))
     = match instances p with [] => None | _ :: _ => window_jupyterKernelBridge p end.
Proof.
  unfold registered. intros Hreg Hkey.
  assert (Hback :
            delete_first (Dom.handle_of container)
              (instances (snd (initializeKernelBridgeForContainer now container p)))
            = instances p).
  { rewrite instances_after_register.
    now apply delete_first_map_set_fresh. }
  split; [now rewrite instances_after_cleanup|].
  destruct (globals_after_register now container p) as [Hj Hb].
  destruct (globals_after_cleanup container
              (snd (initializeKernelBridgeForContainer now container p)))
    as [Hcj Hcb].
  rewrite Hcj, Hcb, Hback, Hj, Hb. split; reflexivity.
Qed.

Lemma register_then_cleanup_restores_witness :
  instances (snd (cleanupJupyterLiteInstance Sample.anonymous
                    (snd (initializeKernelBridgeForContainer 1001 Sample.anonymous
                            Scenario.one_instance))))
  = instances Scenario.one_instance
  /\ window_jupyter
       (snd (cleanupJupyterLiteInstance Sample.anonymous
               (snd (initializeKernelBridgeForContainer 1001 Sample.anonymous
                       Scenario.one_instance))))
     = Some 41.
Proof.
  destruct (register_then_cleanup_restores 1001 Sample.anonymous
              Scenario.one_instance eq_refl eq_refl) as [H1 [H2 _]].
  split; [exact H1 | exact H2].
Defined.

(** Two containers whose registration keys coincide (the same [id]
    attribute, or no id and the same millisecond) share one slot: when
    the second registers, the record of the first is replaced, so the
    first is no longer registered although it was never cleaned up. *)
Theorem key_collision_evicts
        (t1 t2 : nat) (c1 c2 : Dom.element) (p : page) :
  Dom.handle_of c1 <> Dom.handle_of c2 ->
  instanceId t1 c1 = instanceId t2 c2 ->
  registered c1 p = false ->
  registered c1 (snd (initializeKernelBridgeForContainer t1 c1 p)) = true
  /\ registered c1
       (snd (initializeKernelBridgeForContainer t2 c2
               (snd (initializeKernelBridgeForContainer t1 c1 p)))) = false
  /\ registered c2
       (snd (initializeKernelBridgeForContainer t2 c2
               (snd (initializeKernelBridgeForContainer t1 c1 p)))) = true.
Proof.
  unfold registered. intros Hne Hkey Hreg.
  rewrite !instances_after_register. rewrite Hkey, map_set_set.
  repeat split.
  - now apply registered_map_set_own.
  - apply not_registered_map_set; [simpl; congruence | exact Hreg].
  - now apply registered_map_set_own.
Qed.

Lemma key_collision_evicts_witness :
  registered Sample.with_indicator
    (snd (initializeKernelBridgeForContainer 1000 Sample.with_indicator
            Sample.bridge_exposed)) = true
  /\ registered Sample.with_indicator
       (snd (initializeKernelBridgeForContainer 2000 Scenario.twin
               (snd (initializeKernelBridgeForContainer 1000 Sample.with_indicator
                       Sample.bridge_exposed)))) = false
  /\ registered Scenario.twin
       (snd (initializeKernelBridgeForContainer 2000 Scenario.twin
               (snd (initializeKernelBridgeForContainer 1000 Sample.with_indicator
                       Sample.bridge_exposed)))) = true.
Proof.
  apply (key_collision_evicts 1000 2000 Sample.with_indicator Scenario.twin
           Sample.bridge_exposed).
  - simpl. discriminate.
  - reflexivity.
  - reflexivity.
Defined.

(** One cleanup removes one record: the number of records held by the
    container drops by one (staying at zero), the records of every
    other container keep their number, and the container is still
    registered afterwards exactly when it held more than one record. *)
Theorem cleanup_removes_one_record (container : Dom.element) (p : page) :
  records_of (Dom.handle_of container)
             (instances (snd (cleanupJupyterLiteInstance container p)))
  = pred (records_of (Dom.handle_of container) (instances p))
  /\ (forall h, h <> Dom.handle_of container ->
        records_of h (instances (snd (cleanupJupyterLiteInstance container p)))
        = records_of h (instances p))
  /\ registered container (snd (cleanupJupyterLiteInstance container p))
     = Nat.ltb 1 (records_of (Dom.handle_of container) (instances p)).
Proof.
  unfold registered. rewrite instances_after_cleanup. repeat split.
  - apply records_of_delete_first.
  - intros h Hh. now apply records_of_delete_first_other.
  - rewrite registered_records, records_of_delete_first.
    now destruct (records_of (Dom.handle_of container) (instances p)) as [|[|n]].
Qed.

Lemma cleanup_removes_one_record_witness :
  registered Sample.anonymous
    (snd (cleanupJupyterLiteInstance Sample.anonymous Scenario.twice_registered))
  = true
  /\ records_of 0 (instances (snd (cleanupJupyterLiteInstance Sample.anonymous
                                     Scenario.two_instances)))
     = records_of 0 (instances Scenario.two_instances).
Proof.
  split.
  - exact (proj2 (proj2 (cleanup_removes_one_record Sample.anonymous
                           Scenario.twice_registered))).
  - apply (proj1 (proj2 (cleanup_removes_one_record Sample.anonymous
                           Scenario.two_instances)) 0).
    simpl. discriminate.
Defined.

(** A container without id is filed under the clock: two registrations
    at different milliseconds use different keys, so the second one adds
    a record next to the first instead of replacing it. *)
Theorem idless_container_keyed_by_time
        (t1 t2 : nat) (container : Dom.element) (p : page) :
  Dom.id_of container = "" ->
  t1 <> t2 ->
  instanceId t1 container <> instanceId t2 container
  /\ (has_key (instanceId t2 container) (instances p) = false ->
      List.length
        (instances
           (snd (initializeKernelBridgeForContainer t2 container
                   (snd (initializeKernelBridgeForContainer t1 container p)))))
      = S (List.length
             (instances (snd (initializeKernelBridgeForContainer t1 container p))))).
Proof.
  intros Hid Hne.
  assert (Hkeys : instanceId t1 container <> instanceId t2 container).
  { unfold instanceId. rewrite Hid. simpl. intros H.
    injection H as H. now apply decimal_injective in H. }
  split; [exact Hkeys|].
  intros Hfree. rewrite (instances_after_register t2), length_map_set.
  rewrite instances_after_register. unfold has_key in *.
  rewrite map_get_set_other by congruence.
  now destruct (map_get (instanceId t2 container) (instances p)).
Qed.

Lemma idless_container_keyed_by_time_witness :
  instanceId 1000 Sample.anonymous <> instanceId 1001 Sample.anonymous
  /\ List.length
       (instances
          (snd (initializeKernelBridgeForContainer 1001 Sample.anonymous
                  (snd (initializeKernelBridgeForContainer 1000 Sample.anonymous
                          Sample.bridge_exposed)))))
     = S (List.length
            (instances (snd (initializeKernelBridgeForContainer 1000 Sample.anonymous
                               Sample.bridge_exposed)))).
Proof.
  destruct (idless_container_keyed_by_time 1000 1001 Sample.anonymous
              Sample.bridge_exposed eq_refl) as [H1 H2].
  - discriminate.
  - split; [exact H1 | apply H2; reflexivity].
Defined.

End RegistryExtras.

(** ** Theme application, continued *)

Section ThemeMore.
Import Js Dom Theme View.

Lemma string_app_assoc (a b c : string) :
  ((a ++ b) ++ c)%string = (a ++ b ++ c)%string.
Proof. induction a as [|x a IH]; simpl; [reflexivity | now rewrite IH]. Qed.

(** Class changes do not move, rename or re-identify any element. *)
Lemma handle_of_update_classes (h : nat) (f : list string -> list string)
      (e : element) :
  handle_of (update_classes h f e) = handle_of e.
Proof. now destruct e. Qed.

Lemma find_id_update_classes (i : string) (h : nat)
      (f : list string -> list string) (e : element) :
  find_id i (update_classes h f e) = option_map (update_classes h f) (find_id i e).
Proof.
  induction e as [h' i' c kids IH] using element_forall_ind.
  change (update_classes h f (Element h' i' c kids))
    with (Element h' i' (if Nat.eqb h' h then f c else c)
                  (map (update_classes h f) kids)).
  rewrite !find_id_unfold. destruct (String.eqb i' i); [reflexivity|].
  induction IH as [|k r Hk _ IHr]; simpl; [reflexivity|].
  rewrite Hk. destruct (find_id i k); simpl; [reflexivity | exact IHr].
Qed.

Lemma find_id_forest_update_classes (i : string) (h : nat)
      (f : list string -> list string) (l : list element) :
  find_id_forest i (map (update_classes h f) l)
  = option_map (update_classes h f) (find_id_forest i l).
Proof.
  induction l as [|k r IH]; simpl; [reflexivity|].
  rewrite find_id_update_classes.
  destruct (find_id i k); simpl; [reflexivity | exact IH].
Qed.

Lemma querySelector_update_classes (i : string) (h : nat)
      (f : list string -> list string) (e : element) :
  querySelector i (update_classes h f e) = querySelector i e.
Proof.
  unfold querySelector. destruct e as [h' i' c kids]. simpl.
  rewrite find_id_forest_update_classes.
  destruct (find_id_forest i kids); simpl; [|reflexivity].
  now rewrite handle_of_update_classes.
Qed.

Lemma querySelector_map_classes (i : string) (f : list string -> list string)
      (e : element) :
  querySelector i (map_classes f e) = querySelector i e.
Proof. now destruct e. Qed.

Lemma handles_update_classes (h : nat) (f : list string -> list string)
      (e : element) :
  handles (update_classes h f e) = handles e.
Proof.
  induction e as [h' i' c kids IH] using element_forall_ind. simpl. f_equal.
  induction IH as [|k r Hk _ IHr]; simpl; [reflexivity|].
  now rewrite Hk, IHr.
Qed.

Lemma handles_map_classes (f : list string -> list string) (e : element) :
  handles (map_classes f e) = handles e.
Proof. now destruct e. Qed.

Lemma ids_update_classes (h : nat) (f : list string -> list string)
      (e : element) :
  ids (update_classes h f e) = ids e.
Proof.
  induction e as [h' i' c kids IH] using element_forall_ind. simpl. f_equal.
  induction IH as [|k r Hk _ IHr]; simpl; [reflexivity|].
  now rewrite Hk, IHr.
Qed.

Lemma ids_map_classes (f : list string -> list string) (e : element) :
  ids (map_classes f e) = ids e.
Proof. now destruct e. Qed.

(** The class list an explicit preference leaves on a container that
    holds the indicator. *)
Lemma explicit_theme_classes (E : env) (config : JupyterLiteConfig)
      (p : page) (ind : nat) (isDark : bool) :
  querySelector indicator_id (dom p) = Some ind ->
  theme config = Some (if isDark then dark else light) ->
  contains (theme_class isDark)
           (classList (dom (snd (applyThemeToContainer E config p)))) = true
  /\ contains (theme_class (negb isDark))
              (classList (dom (snd (applyThemeToContainer E config p)))) = false.
Proof.
  intros Hq Ht.
  unfold applyThemeToContainer, container_add, container_remove, node_remove,
    when, try_catch, bind, ret, gets, modify.
  rewrite Hq, Ht.
  destruct isDark, (is_true (showLoadingIndicator config)); simpl;
    rewrite ?contains_after_unhide by discriminate;
    rewrite !classList_map_classes; unfold tokens_remove; simpl;
    repeat split;
    first [ apply contains_token_remove_same
          | rewrite contains_token_remove_other by discriminate;
            apply contains_token_add_same ].
Qed.

Lemma prune_handles (h : nat) (kids : list element) :
  Forall (fun e => handle_of e <> h -> ~ In h (handles (detach h e))) kids ->
  ~ In h (flat_map handles (children (detach h (Element 0 "" [] kids)))).
Proof.
  simpl. induction 1 as [|k r Hk _ IH]; simpl; [tauto|].
  destruct (Nat.eqb_spec (handle_of k) h) as [Heq|Hne]; [exact IH|].
  simpl. rewrite in_app_iff. intros [Hin|Hin]; [now apply Hk | now apply IH].
Qed.

Lemma detach_handles (h : nat) (e : element) :
  handle_of e <> h -> ~ In h (handles (detach h e)).
Proof.
  induction e as [h' i' c kids IH] using element_forall_ind.
  intros Hne. simpl in Hne.
  change (handles (detach h (Element h' i' c kids)))
    with (h' :: flat_map handles (children (detach h (Element 0 "" [] kids)))).
  intros [Heq|Hin]; [congruence|].
  now apply (prune_handles h kids IH).
Qed.

Lemma detach_descendants (h : nat) (e : element) :
  ~ In h (descendant_handles (detach h e)).
Proof.
  destruct e as [h' i' c kids]. unfold descendant_handles.
  change (children (detach h (Element h' i' c kids)))
    with (children (detach h (Element 0 "" [] kids))).
  apply prune_handles. apply Forall_forall. intros x _. apply detach_handles.
Qed.

End ThemeMore.

Section ThemePattern.
Import JsString Theme.

Lemma includes_char_cons (a c : ascii) (n : string) :
  c <> a ->
  includes (String c n) (String a "") = includes n (String a "").
Proof.
  intros Hne.
  change (includes (String c n) (String a ""))
    with (startsWith (String a "") (String c n) || includes n (String a "")).
  cbn [startsWith]. destruct (Ascii.eqb_spec a c); [congruence | reflexivity].
Qed.

Lemma take_non_quote_spec (s : string) :
  s = (fst (take_non_quote s) ++ snd (take_non_quote s))%string
  /\ includes (fst (take_non_quote s)) (String dquote "") = false.
Proof.
  induction s as [|c s [IHs IHq]]; [split; reflexivity|].
  cbn [take_non_quote].
  destruct (Ascii.eqb_spec c dquote) as [->|Hne]; [split; reflexivity|].
  destruct (take_non_quote s) as [n rest]. cbn [fst snd] in *. split.
  - cbn [append]. now rewrite <- IHs.
  - now rewrite includes_char_cons.
Qed.

Lemma skip_spaces_suffix (s : string) :
  exists pre, s = (pre ++ skip_spaces s)%string.
Proof.
  induction s as [|c s [pre IH]]; simpl.
  - now exists "".
  - destruct (is_space c).
    + exists (String c pre). simpl. now rewrite <- IH.
    + now exists "".
Qed.

Lemma strip_prefix_ci_suffix (p s r : string) :
  strip_prefix_ci p s = Some r -> exists pre, s = (pre ++ r)%string.
Proof.
  revert s. induction p as [|a p IH]; intros s; simpl.
  - intros [= ->]. now exists "".
  - destruct s as [|b s]; [discriminate|].
    destruct (Ascii.eqb (lower_char a) (lower_char b)); [|discriminate].
    intros H. destruct (IH _ H) as [pre ->]. now exists (String b pre).
Qed.

Lemma match_theme_here_spec (s name : string) :
  match_theme_here s = Some name ->
  name <> ""
  /\ includes name (String dquote "") = false
  /\ exists pre post, s = (pre ++ name ++ post)%string.
Proof.
  unfold match_theme_here.
  destruct (strip_prefix_ci theme_literal s) as [r1|] eqn:H1; [|discriminate].
  destruct (strip_prefix_ci_suffix _ _ _ H1) as [p1 ->].
  destruct (skip_spaces_suffix r1) as [p2 H2].
  destruct (skip_spaces r1) as [|c r2]; [discriminate|].
  destruct (Ascii.eqb c ":"); [|discriminate].
  destruct (skip_spaces_suffix r2) as [p3 H3].
  destruct (skip_spaces r2) as [|q r3]; [discriminate|].
  destruct (Ascii.eqb q dquote); [|discriminate].
  destruct (take_non_quote_spec r3) as [H4 Hq].
  destruct (take_non_quote r3) as [[|n ns] [|x rest]]; try discriminate.
  cbn [fst snd] in *. intros [= <-].
  split; [discriminate|]. split; [exact Hq|].
  exists (p1 ++ p2 ++ String c (p3 ++ String q ""))%string, (String x rest).
  clear H1. subst r3 r2 r1.
  repeat (rewrite string_app_assoc || cbn [append]). reflexivity.
Qed.

Lemma match_theme_spec (s name : string) :
  match_theme s = Some name ->
  name <> ""
  /\ includes name (String dquote "") = false
  /\ exists pre post, s = (pre ++ name ++ post)%string.
Proof.
  induction s as [|c s IH].
  - simpl. discriminate.
  - change (match_theme (String c s))
      with (match match_theme_here (String c s) with
            | Some n => Some n
            | None => match_theme s
            end).
    destruct (match_theme_here (String c s)) eqn:H.
    + intros [= <-]. now apply match_theme_here_spec.
    + intros Hm. destruct (IH Hm) as [Hne [Hq [pre [post ->]]]].
      repeat split; try assumption. now exists (String c pre), post.
Qed.

End ThemePattern.

Section ThemeExtras.
Import Js Dom Theme View.

Ltac theme_run :=
  unfold applyThemeToContainer, applyAutoTheme, read_settings,
    detect_isDarkTheme, matchMedia_dark, container_add, container_remove,
    node_remove, node_add, storage_do, console_warn, when, try_catch,
    bind, ret, throw, gets, modify.

(** Every path through [applyThemeToContainer], one goal each. *)
Ltac theme_cases E config p :=
  theme_run;
  destruct (querySelector indicator_id (dom p)) as [?ind|];
  [ destruct (theme config) as [[ | | ]|];
    destruct (is_true (showLoadingIndicator config));
    [ .. | destruct (storage E) as [?e|?e|?e|[?s|]];
           try (destruct (JsString.truthy s));
           destruct (prefers_dark E)
         | destruct (storage E) as [?e|?e|?e|[?s|]];
           try (destruct (JsString.truthy s));
           destruct (prefers_dark E)
         | | ]
  | ]; simpl.

(** A configuration without theme preference is not treated as auto:
    the call issues no storage operation and changes no class other
    than the hidden mark of the indicator. *)
Theorem absent_theme_changes_no_class
        (E : env) (config : JupyterLiteConfig) (p : page) (c : string) :
  theme config = None -> c <> "hidden" ->
  fst (applyThemeToContainer E config p) = Normal tt
  /\ storage_io (snd (applyThemeToContainer E config p)) = storage_io p
  /\ contains c (classList (dom (snd (applyThemeToContainer E config p))))
     = contains c (classList (dom p)).
Proof.
  intros Ht Hc. theme_run. rewrite Ht.
  destruct (querySelector indicator_id (dom p)); [|repeat split].
  destruct (is_true (showLoadingIndicator config)); simpl; repeat split.
  now apply contains_after_unhide.
Qed.

Lemma absent_theme_changes_no_class_witness :
  contains jp_mod_light
    (classList (dom (snd (applyThemeToContainer
                            (Sample.store_returns (Some Sample.dark_settings) (Some true))
                            {| theme := None; showLoadingIndicator := Some true;
                               settingsStorageName := None; enableKernelBridge := None;
                               kernelBridgeConfig := None |}
                            (Sample.page_of Sample.with_indicator)))))
  = contains jp_mod_light (classList (dom (Sample.page_of Sample.with_indicator))).
Proof.
  apply (absent_theme_changes_no_class
           (Sample.store_returns (Some Sample.dark_settings) (Some true))
           {| theme := None; showLoadingIndicator := Some true;
              settingsStorageName := None; enableKernelBridge := None;
              kernelBridgeConfig := None |}
           (Sample.page_of Sample.with_indicator) jp_mod_light).
  - reflexivity.
  - discriminate.
Defined.

(** Theme application stays within its own state: whatever the store,
    the system signal and the configuration do, the document head, the
    registry, the two page-global handles, the timers and the
    federation log are left as they were. *)
Theorem apply_theme_frame (E : env) (config : JupyterLiteConfig) (p : page) :
  head (snd (applyThemeToContainer E config p)) = head p
  /\ instances (snd (applyThemeToContainer E config p)) = instances p
  /\ window_jupyter (snd (applyThemeToContainer E config p)) = window_jupyter p
  /\ window_jupyterKernelBridge (snd (applyThemeToContainer E config p))
     = window_jupyterKernelBridge p
  /\ timers (snd (applyThemeToContainer E config p)) = timers p
  /\ federation (snd (applyThemeToContainer E config p)) = federation p.
Proof. theme_cases E config p; repeat split. Qed.

(** Theme application only rewrites class lists: every element keeps
    its identity, its id and its place, so every [querySelector] by id
    answers as before; in particular the loading indicator stays
    findable. *)
Theorem apply_theme_changes_classes_only
        (E : env) (config : JupyterLiteConfig) (p : page) :
  handles (dom (snd (applyThemeToContainer E config p))) = handles (dom p)
  /\ ids (dom (snd (applyThemeToContainer E config p))) = ids (dom p)
  /\ forall i,
      querySelector i (dom (snd (applyThemeToContainer E config p)))
      = querySelector i (dom p).
Proof.
  theme_cases E config p;
    (split; [|split; [|intros i]]);
    now rewrite ?handles_update_classes, ?handles_map_classes,
      ?ids_update_classes, ?ids_map_classes,
      ?querySelector_update_classes, ?querySelector_map_classes.
Qed.

(** Of two explicit preferences applied one after the other, the second
    one decides: the container ends with its class and without the
    other. *)
Theorem last_explicit_preference_wins
        (E1 E2 : env) (config1 config2 : JupyterLiteConfig) (p : page)
        (ind : nat) (first second : bool) :
  querySelector indicator_id (dom p) = Some ind ->
  theme config1 = Some (if first then dark else light) ->
  theme config2 = Some (if second then dark else light) ->
  contains (theme_class second)
    (classList (dom (snd (applyThemeToContainer E2 config2
                            (snd (applyThemeToContainer E1 config1 p)))))) = true
  /\ contains (theme_class (negb second))
       (classList (dom (snd (applyThemeToContainer E2 config2
                               (snd (applyThemeToContainer E1 config1 p)))))) = false.
Proof.
  intros Hq H1 H2.
  apply (explicit_theme_classes E2 config2 _ ind second); [|exact H2].
  assert (Hkeep : querySelector indicator_id
                    (dom (snd (applyThemeToContainer E1 config1 p)))
                  = querySelector indicator_id (dom p)).
  { clear H2. theme_run. rewrite Hq, H1.
    destruct first, (is_true (showLoadingIndicator config1)); simpl;
      now rewrite ?querySelector_update_classes, ?querySelector_map_classes. }
  now rewrite Hkeep.
Qed.

Lemma last_explicit_preference_wins_witness :
  contains jp_mod_light
    (classList (dom (snd (applyThemeToContainer (Sample.store_fails None)
                            (Sample.config_of light)
                            (snd (applyThemeToContainer (Sample.store_fails None)
                                    (Sample.config_of dark)
                                    (Sample.page_of Sample.with_indicator))))))) = true
  /\ contains jp_mod_dark
       (classList (dom (snd (applyThemeToContainer (Sample.store_fails None)
                               (Sample.config_of light)
                               (snd (applyThemeToContainer (Sample.store_fails None)
                                       (Sample.config_of dark)
                                       (Sample.page_of Sample.with_indicator))))))) = false.
Proof.
  apply (last_explicit_preference_wins (Sample.store_fails None) (Sample.store_fails None)
           (Sample.config_of dark) (Sample.config_of light)
           (Sample.page_of Sample.with_indicator) 2 true false); reflexivity.
Defined.

(** What the pattern extracts as theme name is never empty, holds no
    double quote, and occurs literally in the stored text. *)
Theorem theme_name_well_formed (settings name : string) :
  match_theme settings = Some name ->
  name <> ""
  /\ JsString.includes name (String JsString.dquote "") = false
  /\ JsString.includes settings name = true.
Proof.
  intros Hm. destruct (match_theme_spec settings name Hm) as [Hne [Hq Hocc]].
  repeat split; try assumption. now apply includes_iff.
Qed.

Lemma theme_name_well_formed_witness :
  "JupyterLab Dark" <> ""
  /\ JsString.includes "JupyterLab Dark" (String JsString.dquote "") = false
  /\ JsString.includes Sample.dark_settings "JupyterLab Dark" = true.
Proof.
  apply (theme_name_well_formed Sample.dark_settings "JupyterLab Dark").
  reflexivity.
Defined.

(** A name that counts as dark keeps counting as dark whatever is
    written before or after it. *)
Theorem dark_name_extension (pre name post : string) :
  name_is_dark name = true ->
  name_is_dark (pre ++ name ++ post)%string = true.
Proof.
  rewrite !name_is_dark_iff. unfold dark_indicating, contains_ci.
  assert (Hext : forall pat,
             (exists a w b, name = (a ++ w ++ b)%string /\ JsString.toLowerCase w = pat) ->
             exists a w b, (pre ++ name ++ post)%string = (a ++ w ++ b)%string
                           /\ JsString.toLowerCase w = pat).
  { intros pat [a [w [b [-> Hw]]]].
    exists (pre ++ a)%string, w, (b ++ post)%string. split; [|exact Hw].
    now rewrite !string_app_assoc. }
  intros [H|[H|H]]; [left | right; left | right; right]; now apply Hext.
Qed.

Lemma dark_name_extension_witness :
  name_is_dark ("JupyterLab " ++ "Night" ++ " (light variant)")%string = true.
Proof.
  apply (dark_name_extension "JupyterLab " "Night" " (light variant)").
  reflexivity.
Defined.

(** The delayed callback really removes the loading indicator: once it
    has run, no descendant of the container is the node that
    [initializeInContainer] had found. *)
Theorem delayed_cleanup_detaches_indicator (ind : nat) (q : page) :
  ~ In ind (descendant_handles
              (dom (snd (Container.run_callback (DelayedCleanup (Some ind)) q)))).
Proof.
  unfold Container.run_callback, container_remove, bind, modify. simpl.
  unfold descendant_handles.
  replace (children (map_classes (tokens_remove [jp_mod_dark; jp_mod_light])
                                 (detach ind (dom q))))
    with (children (detach ind (dom q)))
    by (now destruct (detach ind (dom q))).
  apply detach_descendants.
Qed.

End ThemeExtras.

(** ** Components and the bootstrap sequence, continued *)

Section LoaderMore.
Import Js Loader View.

Lemma run_on_no_task (N : network) (schedule : list nat) (p : page) :
  run N schedule [] p = (Normal [], p).
Proof.
  induction schedule as [|i later IH]; [reflexivity|].
  simpl. unfold bind. destruct i; simpl; exact IH.
Qed.

Lemma run_report_failures_exact (extensions : list settled) (p : page) :
  report_failures extensions p =
  (Normal tt,
   set_console
     (fun c => c ++ map (ConsoleError "Failed to load extension:") (rejections extensions))
     p).
Proof.
  revert p. induction extensions as [|[|reason] rest IH]; intros p; simpl.
  - unfold ret, set_console. rewrite app_nil_r. now destruct p.
  - apply IH.
  - unfold bind, console_error, modify. rewrite IH.
    unfold set_console; simpl. now rewrite <- app_assoc.
Qed.

(** The page the extension phase leaves: new scripts in the head, new
    federation calls, and one console error per rejection once it has
    resumed; nothing else. *)
Lemma load_extensions_page (N : network) (schedule : list nat)
      (configData : configuration) (p : page) :
  exists calls,
    load_extensions N schedule configData p =
    (Normal (allSettled (run_tasks N schedule
                           (map (initial_task (labExtensionUrl configData))
                                (extensionData configData)))),
     set_console
       (fun c => c ++ map (ConsoleError "Failed to load extension:")
                          (match allSettled (run_tasks N schedule
                                               (map (initial_task (labExtensionUrl configData))
                                                    (extensionData configData))) with
                           | Some extensions => rejections extensions
                           | None => []
                           end))
       (set_federation (fun l => l ++ calls)
          (set_head (fun h => h ++ map (script_of (labExtensionUrl configData))
                                  (extensionData configData)) p))).
Proof.
  unfold load_extensions, bind. rewrite run_spawn_all.
  destruct (run_run N schedule
              (map (initial_task (labExtensionUrl configData)) (extensionData configData))
              (set_head (fun h => h ++ map (script_of (labExtensionUrl configData))
                                      (extensionData configData)) p))
    as [calls Hrun].
  exists calls. rewrite Hrun.
  destruct (allSettled _) as [extensions|].
  - now rewrite run_report_failures_exact.
  - unfold ret, set_console. simpl. now rewrite app_nil_r.
Qed.

End LoaderMore.

Section LoaderExtras.
Import Js Loader View.

(** The federation calls of one [loadComponent]: none when the script
    fails; the sharing initialisation alone when that fails, when
    [window._JUPYTERLAB] is missing or when nothing is exposed under the
    name; otherwise the sharing initialisation followed by the [init]
    of the exposed object.  The [init] is never called after a failed
    sharing initialisation, and the script element stays in the head
    whatever happens. *)
Theorem loadComponent_federation_calls
        (N : network) (url scope : string) (p : page) :
  head (snd (loadComponent N url scope p)) = head p ++ [{| src := url; async := true |}]
  /\ federation (snd (loadComponent N url scope p))
     = federation p ++
       (if script_loads N url
        then CallInitSharing "default" ::
             match init_sharing_fails N, registry_lookup N scope with
             | None, Normal (Some _) => [CallContainerInit scope]
             | _, _ => []
             end
        else []).
Proof.
  unfold loadComponent, webpack_init_sharing, container_init, federation_do,
    bind, modify, ret, throw.
  rewrite run_loadScript.
  destruct (script_loads N url); simpl; [|now rewrite app_nil_r].
  destruct (init_sharing_fails N); simpl; [split; reflexivity|].
  destruct (registry_lookup N scope) as [[c|]|e]; simpl; try (split; reflexivity).
  destruct (init_fails c); simpl; now rewrite <- app_assoc.
Qed.

(** Once the phase has resumed, the console has received one error
    entry per rejected extension, in list order, and none for the
    fulfilled ones; while the phase is suspended nothing is logged. *)
Theorem extension_failures_logged_once
        (N : network) (schedule : list nat) (configData : configuration) (p : page) :
  console (snd (load_extensions N schedule configData p))
  = console p ++
    match fst (load_extensions N schedule configData p) with
    | Normal (Some extensions) =>
        map (ConsoleError "Failed to load extension:") (rejections extensions)
    | _ => []
    end.
Proof.
  destruct (load_extensions_page N schedule configData p) as [calls ->]. simpl.
  now destruct (allSettled _).
Qed.

(** With no extension configured the phase is a no-op that resumes at
    once, under every schedule: no script, no call, no log. *)
Theorem no_extensions_resolves_at_once
        (N : network) (schedule : list nat) (configData : configuration) (p : page) :
  extensionData configData = [] ->
  load_extensions N schedule configData p = (Normal (Some []), p).
Proof.
  intros He. unfold load_extensions, bind. rewrite He. simpl.
  unfold ret at 1. now rewrite run_on_no_task.
Qed.

Lemma no_extensions_resolves_at_once_witness :
  load_extensions Sample.browser [3; 0; 1] Bootstrap.empty_configuration
                  (Sample.page_of Sample.bare)
  = (Normal (Some []), Sample.page_of Sample.bare).
Proof.
  apply (no_extensions_resolves_at_once Sample.browser [3; 0; 1]
           Bootstrap.empty_configuration (Sample.page_of Sample.bare)).
  reflexivity.
Defined.

End LoaderExtras.

Section BootstrapMore.
Import Js Loader Container Bootstrap View.

Lemma run_getConfigurationData (parse : json_parse) (el : option string) (p : page) :
  exists r warnings,
    getConfigurationData parse el p
    = (Normal r, set_console (fun c => c ++ warnings) p).
Proof.
  unfold getConfigurationData, try_catch, bind, console_warn, modify, ret.
  destruct el as [text|].
  - destruct (parse (JsString.or_default (Some text) "{}")) as [r|e].
    + exists r, []. unfold set_console. rewrite app_nil_r. now destruct p.
    + eexists. eexists. reflexivity.
  - exists (Some empty_configuration), [].
    unfold set_console. rewrite app_nil_r. now destruct p.
Qed.

Lemma id_of_update_classes (h : nat) (f : list string -> list string)
      (e : Dom.element) :
  Dom.id_of (Dom.update_classes h f e) = Dom.id_of e.
Proof. now destruct e. Qed.

(** [initializeInContainer] on the module that [loadJupyterLiteMain]
    resolves with: it cannot fail. *)
Lemma run_initialize_resolved_module (now : nat) (config : JupyterLiteConfig) (p : page) :
  fst (initializeInContainer now {| main := Some (ret tt); default := None |} config p)
  = Normal tt
  /\ timers (snd (initializeInContainer now {| main := Some (ret tt); default := None |}
                    config p))
     = timers p ++ [(1000, DelayedCleanup (Dom.querySelector Theme.indicator_id (dom p)))]
  /\ head (snd (initializeInContainer now {| main := Some (ret tt); default := None |}
                  config p)) = head p
  /\ instances (snd (initializeInContainer now {| main := Some (ret tt); default := None |}
                       config p))
     = (if bridge_requested config
        then Registry.map_set (Registry.instanceId now (dom p))
               {| inst_container := Dom.handle_of (dom p);
                  inst_jupyter := window_jupyter p;
                  inst_bridge := window_jupyterKernelBridge p |}
               (instances p)
        else instances p).
Proof.
  unfold initializeInContainer, hide_indicator, invoke_entry, setTimeout,
    Registry.initializeKernelBridgeForContainer, Theme.node_add, console_log,
    when, try_catch, bind, gets, modify, ret. simpl.
  destruct (Dom.querySelector Theme.indicator_id (dom p)); simpl;
    destruct (bridge_requested config); simpl; repeat split;
      unfold Registry.instanceId;
      now rewrite ?id_of_update_classes, ?handle_of_update_classes.
Qed.

End BootstrapMore.

Section BootstrapExtras.
Import Js Loader Container Bootstrap View.

Ltac bootstrap_start parse el p configData Hcfg :=
  unfold loadJupyterLiteBootstrap, bind;
  let r := fresh "r" in
  let warnings := fresh "warnings" in
  let Hg := fresh "Hg" in
  destruct (run_getConfigurationData parse el p) as [r [warnings Hg]];
  rewrite Hg in Hcfg |- *; simpl in Hcfg; injection Hcfg as ->.

Ltac with_initialize now config :=
  match goal with
  | |- context [initializeInContainer now ?m config ?P] =>
      let Hrun := fresh "Hrun" in
      let H1 := fresh "Hfst" in
      let H2 := fresh "Htimers" in
      let H3 := fresh "Hhead" in
      let H4 := fresh "Hinst" in
      pose proof (run_initialize_resolved_module now config P) as Hrun;
      unfold ret in Hrun; revert Hrun;
      destruct (initializeInContainer now m config P) as [[[]|?e] ?pf];
      simpl; intros [H1 [H2 [H3 H4]]]; [|discriminate H1]
  end.

(** Failing extensions do not stop the mount: when the configuration
    is readable, every extension attempt has settled (however it
    ended) and the bootstrap script loads, [loadJupyterLiteBootstrap]
    completes; the head then holds the extension scripts followed by
    the bootstrap script, and the delayed cleanup is scheduled. *)
Theorem bootstrap_survives_extension_failures
        (N : network) (schedule : list nat) (now : nat) (parse : json_parse)
        (el : option string) (config : JupyterLiteConfig)
        (configData : configuration) (p : page) :
  fst (getConfigurationData parse el p) = Normal (Some configData) ->
  (forall i data,
      nth_error (extensionData configData) i = Some data ->
      awaited N (labExtensionUrl configData) data <= deliveries schedule i) ->
  script_loads N bootstrap_url = true ->
  fst (loadJupyterLiteBootstrap N schedule now parse el config p) = Normal (Some tt)
  /\ head (snd (loadJupyterLiteBootstrap N schedule now parse el config p))
     = head p
       ++ map (script_of (labExtensionUrl configData)) (extensionData configData)
       ++ [{| src := bootstrap_url; async := true |}]
  /\ timers (snd (loadJupyterLiteBootstrap N schedule now parse el config p))
     = timers p ++ [(1000, DelayedCleanup (Dom.querySelector Theme.indicator_id (dom p)))].
Proof.
  intros Hcfg Hfair Hload.
  bootstrap_start parse el p configData Hcfg.
  destruct (load_extensions_page N schedule configData
              (set_console (fun c => c ++ warnings) p)) as [calls ->].
  rewrite (fair_schedule_settles N schedule _ _ Hfair).
  unfold loadJupyterLiteMain, console_log, bind, modify, ret. rewrite Hload.
  cbv beta iota. with_initialize now config. simpl.
  rewrite Hhead, Htimers. simpl. now rewrite <- app_assoc.
Qed.

Lemma bootstrap_survives_extension_failures_witness :
  fst (loadJupyterLiteBootstrap Scenario.serving_bootstrap [1; 0; 0; 0] 1000
         (Scenario.parses (Some Sample.two_extensions)) (Some "{...}")
         (Sample.config_of dark) (Sample.page_of Sample.with_indicator))
  = Normal (Some tt).
Proof.
  apply (bootstrap_survives_extension_failures Scenario.serving_bootstrap [1; 0; 0; 0]
           1000 (Scenario.parses (Some Sample.two_extensions)) (Some "{...}")
           (Sample.config_of dark) Sample.two_extensions
           (Sample.page_of Sample.with_indicator)).
  - reflexivity.
  - intros i data Hd. destruct i as [|[|i]].
    + injection Hd as <-. vm_compute. lia.
    + injection Hd as <-. vm_compute. lia.
    + destruct i; discriminate Hd.
  - reflexivity.
Defined.

(** The one failure that does stop the mount: when the bootstrap script
    fails to load, the call rejects with the bootstrap error, and the
    container is never initialised: no class is touched, no instance is
    registered, no timer is set. *)
Theorem bootstrap_script_failure_rejects
        (N : network) (schedule : list nat) (now : nat) (parse : json_parse)
        (el : option string) (config : JupyterLiteConfig)
        (configData : configuration) (p : page) :
  fst (getConfigurationData parse el p) = Normal (Some configData) ->
  (forall i data,
      nth_error (extensionData configData) i = Some data ->
      awaited N (labExtensionUrl configData) data <= deliveries schedule i) ->
  script_loads N bootstrap_url = false ->
  fst (loadJupyterLiteBootstrap N schedule now parse el config p) = Throw bootstrap_error
  /\ dom (snd (loadJupyterLiteBootstrap N schedule now parse el config p)) = dom p
  /\ instances (snd (loadJupyterLiteBootstrap N schedule now parse el config p))
     = instances p
  /\ timers (snd (loadJupyterLiteBootstrap N schedule now parse el config p)) = timers p.
Proof.
  intros Hcfg Hfair Hload.
  bootstrap_start parse el p configData Hcfg.
  destruct (load_extensions_page N schedule configData
              (set_console (fun c => c ++ warnings) p)) as [calls ->].
  rewrite (fair_schedule_settles N schedule _ _ Hfair).
  unfold loadJupyterLiteMain, console_log, bind, modify, throw. rewrite Hload.
  simpl. repeat split.
Qed.

Lemma bootstrap_script_failure_rejects_witness :
  fst (loadJupyterLiteBootstrap Scenario.missing_bootstrap [] 1000
         Scenario.parse_fails (Some "<html>")
         (Sample.config_of dark) (Sample.page_of Sample.with_indicator))
  = Throw bootstrap_error.
Proof.
  apply (bootstrap_script_failure_rejects Scenario.missing_bootstrap [] 1000
           Scenario.parse_fails (Some "<html>") (Sample.config_of dark)
           empty_configuration (Sample.page_of Sample.with_indicator)).
  - reflexivity.
  - intros i data Hd. destruct i; discriminate Hd.
  - reflexivity.
Defined.

(** An extension attempt that never settles holds up everything after
    it: the call stays suspended, the bootstrap script is not even
    requested, and the container is not touched. *)
Theorem pending_extension_blocks_bootstrap
        (N : network) (schedule : list nat) (now : nat) (parse : json_parse)
        (el : option string) (config : JupyterLiteConfig)
        (configData : configuration) (p : page) (i : nat) (data : descriptor) :
  fst (getConfigurationData parse el p) = Normal (Some configData) ->
  nth_error (extensionData configData) i = Some data ->
  deliveries schedule i < awaited N (labExtensionUrl configData) data ->
  fst (loadJupyterLiteBootstrap N schedule now parse el config p) = Normal None
  /\ head (snd (loadJupyterLiteBootstrap N schedule now parse el config p))
     = head p ++ map (script_of (labExtensionUrl configData)) (extensionData configData)
  /\ dom (snd (loadJupyterLiteBootstrap N schedule now parse el config p)) = dom p
  /\ timers (snd (loadJupyterLiteBootstrap N schedule now parse el config p)) = timers p.
Proof.
  intros Hcfg Hd Hlt.
  bootstrap_start parse el p configData Hcfg.
  destruct (load_extensions_page N schedule configData
              (set_console (fun c => c ++ warnings) p)) as [calls ->].
  rewrite (pending_task_blocks N schedule _ _ i data Hd Hlt).
  simpl. repeat split.
Qed.

Lemma pending_extension_blocks_bootstrap_witness :
  fst (loadJupyterLiteBootstrap Scenario.serving_bootstrap [1; 0; 0] 1000
         (Scenario.parses (Some Sample.two_extensions)) (Some "{...}")
         (Sample.config_of dark) (Sample.page_of Sample.with_indicator))
  = Normal None
  /\ head (snd (loadJupyterLiteBootstrap Scenario.serving_bootstrap [1; 0; 0] 1000
                  (Scenario.parses (Some Sample.two_extensions)) (Some "{...}")
                  (Sample.config_of dark) (Sample.page_of Sample.with_indicator)))
     = [{| src := "/extensions/@my/extension/remoteEntry.js"; async := true |};
        {| src := "/extensions/@my/broken/missing.js"; async := true |}].
Proof.
  destruct (pending_extension_blocks_bootstrap Scenario.serving_bootstrap [1; 0; 0]
              1000 (Scenario.parses (Some Sample.two_extensions)) (Some "{...}")
              (Sample.config_of dark) Sample.two_extensions
              (Sample.page_of Sample.with_indicator) 0 Sample.good_extension
              eq_refl eq_refl) as [H1 [H2 _]].
  - vm_compute. lia.
  - split; [exact H1 | exact H2].
Defined.



(** Reading the configuration never fails the call by itself: a page
    without configuration element, or with one that does not parse,
    yields the empty configuration (with one warning in the second
    case), so that no extension is loaded. *)
Theorem config_data_falls_back_to_empty
        (parse : json_parse) (el : option string) (p : page) :
  (exists r, fst (getConfigurationData parse el p) = Normal r)
  /\ (el = None ->
      getConfigurationData parse el p = (Normal (Some empty_configuration), p))
  /\ (forall text e,
        el = Some text ->
        parse (JsString.or_default (Some text) "{}") = Throw e ->
        getConfigurationData parse el p
        = (Normal (Some empty_configuration),
           set_console
             (fun c => c ++ [ConsoleWarn "Failed to parse jupyter-config-data:" e]) p))
  /\ extensionData empty_configuration = [].
Proof.
  split; [|split; [|split]].
  - destruct (run_getConfigurationData parse el p) as [r [w ->]]. now exists r.
  - now intros ->.
  - intros text e -> Hp.
    unfold getConfigurationData, try_catch, bind, console_warn, modify, ret.
    now rewrite Hp.
  - reflexivity.
Qed.

Lemma config_data_falls_back_to_empty_witness :
  getConfigurationData Scenario.parse_fails (Some "<html>") (Sample.page_of Sample.bare)
  = (Normal (Some empty_configuration),
     set_console
       (fun c => c ++ [ConsoleWarn "Failed to parse jupyter-config-data:"
                         (Error "Unexpected token < in JSON at position 0")])
       (Sample.page_of Sample.bare)).
Proof.
  apply (proj1 (proj2 (proj2 (config_data_falls_back_to_empty Scenario.parse_fails
                                (Some "<html>") (Sample.page_of Sample.bare))))
               "<html>").
  - reflexivity.
  - reflexivity.
Defined.

(** A configuration element whose JSON text is [null] is fatal: the
    first property read throws, before any script is requested. *)
Theorem null_config_rejects
        (N : network) (schedule : list nat) (now : nat) (parse : json_parse)
        (text : string) (config : JupyterLiteConfig) (p : page) :
  parse (JsString.or_default (Some text) "{}") = Normal None ->
  loadJupyterLiteBootstrap N schedule now parse (Some text) config p
  = (Throw null_property_error, p).
Proof.
  intros Hp.
  unfold loadJupyterLiteBootstrap, getConfigurationData, try_catch, bind, throw.
  now rewrite Hp.
Qed.

Lemma null_config_rejects_witness :
  loadJupyterLiteBootstrap Scenario.serving_bootstrap [] 1000
    (Scenario.parses None) (Some "null") (Sample.config_of dark)
    (Sample.page_of Sample.with_indicator)
  = (Throw null_property_error, Sample.page_of Sample.with_indicator).
Proof.
  apply (null_config_rejects Scenario.serving_bootstrap [] 1000
           (Scenario.parses None) "null" (Sample.config_of dark)
           (Sample.page_of Sample.with_indicator)).
  reflexivity.
Defined.

End BootstrapExtras.

(** ** Failed initialisation and the placeholder *)

Section ContainerExtras.
Import Js Dom Theme Container Placeholder.

Lemma remove_children_nil (kids : list element) : remove_children kids = [].
Proof. induction kids as [|k r IH]; [reflexivity | exact IH]. Qed.

(** A module that exposes neither [main] nor [default] makes
    [initializeInContainer] throw after logging the error once; no
    timer is set and nothing is registered, so the loading indicator,
    hidden at the start of the call, stays in the container, hidden. *)
Theorem missing_entry_point_fails_cleanly
        (now : nat) (jupyterliteModule : entry_module)
        (config : JupyterLiteConfig) (p : page) :
  main jupyterliteModule = None ->
  default jupyterliteModule = None ->
  fst (initializeInContainer now jupyterliteModule config p)
  = Throw (Error "JupyterLite module does not expose expected main function")
  /\ console (snd (initializeInContainer now jupyterliteModule config p))
     = console p ++
       [ConsoleError "Failed to initialize JupyterLite in container:"
          (Error "JupyterLite module does not expose expected main function")]
  /\ timers (snd (initializeInContainer now jupyterliteModule config p)) = timers p
  /\ instances (snd (initializeInContainer now jupyterliteModule config p)) = instances p
  /\ (forall x,
        find_id_forest indicator_id (children (dom p)) = Some x ->
        exists x',
          find_id_forest indicator_id
            (children (dom (snd (initializeInContainer now jupyterliteModule config p))))
          = Some x'
          /\ handle_of x' = handle_of x
          /\ contains "hidden" (classList x') = true).
Proof.
  intros Hmain Hdefault.
  unfold initializeInContainer, hide_indicator, invoke_entry, node_add,
    console_error, try_catch, bind, gets, modify, ret, throw.
  rewrite Hmain, Hdefault. unfold querySelector.
  destruct (find_id_forest indicator_id (children (dom p))) as [x|] eqn:Hx; simpl.
  - do 4 (split; [reflexivity|]). intros y [= <-].
    exists (update_classes (handle_of x) (token_add "hidden") x).
    destruct (dom p) as [h i c kids]. simpl in *.
    rewrite find_id_forest_update_classes, Hx. simpl.
    rewrite handle_of_update_classes, classList_update_classes, Nat.eqb_refl.
    repeat split. apply contains_token_add_same.
  - do 4 (split; [reflexivity|]). intros y [=].
Qed.

Lemma missing_entry_point_fails_cleanly_witness :
  fst (initializeInContainer 1000 Scenario.no_entry (Sample.config_of dark)
         (Sample.page_of Sample.with_indicator))
  = Throw (Error "JupyterLite module does not expose expected main function")
  /\ timers (snd (initializeInContainer 1000 Scenario.no_entry (Sample.config_of dark)
                    (Sample.page_of Sample.with_indicator))) = [].
Proof.
  destruct (missing_entry_point_fails_cleanly 1000 Scenario.no_entry
              (Sample.config_of dark) (Sample.page_of Sample.with_indicator)
              eq_refl eq_refl) as [H1 [_ [H3 _]]].
  split; [exact H1 | exact H3].
Defined.

(** [initializeJupyterLiteInContainer] replaces whatever the container
    held by the placeholder wrapper and keeps the container's own
    identity, id and classes.  None of the new elements has an id, so
    a loading indicator that was there is gone, and a theme application
    on the result does nothing at all. *)
Theorem placeholder_replaces_content
        (fresh : nat) (config : JupyterLiteConfig) (p : page) :
  fst (initializeJupyterLiteInContainer fresh config p) = Normal tt
  /\ children (dom (snd (initializeJupyterLiteInContainer fresh config p)))
     = [wrapper fresh]
  /\ handle_of (dom (snd (initializeJupyterLiteInContainer fresh config p)))
     = handle_of (dom p)
  /\ id_of (dom (snd (initializeJupyterLiteInContainer fresh config p))) = id_of (dom p)
  /\ classList (dom (snd (initializeJupyterLiteInContainer fresh config p)))
     = classList (dom p)
  /\ querySelector indicator_id
       (dom (snd (initializeJupyterLiteInContainer fresh config p))) = None
  /\ forall E themeConfig,
      applyThemeToContainer E themeConfig
        (snd (initializeJupyterLiteInContainer fresh config p))
      = (Normal tt, snd (initializeJupyterLiteInContainer fresh config p)).
Proof.
  assert (Hdom : dom (snd (initializeJupyterLiteInContainer fresh config p))
                 = Element (handle_of (dom p)) (id_of (dom p)) (classList (dom p))
                           [wrapper fresh]).
  { unfold initializeJupyterLiteInContainer, try_catch, bind, console_log, modify.
    simpl. unfold clear. destruct (dom p) as [h i c kids]. simpl.
    now rewrite remove_children_nil. }
  assert (Hq : querySelector indicator_id
                 (dom (snd (initializeJupyterLiteInContainer fresh config p))) = None).
  { rewrite Hdom. reflexivity. }
  split; [reflexivity|].
  do 4 (split; [now rewrite Hdom|]).
  split; [exact Hq|].
  intros E themeConfig.
  unfold applyThemeToContainer, bind, gets, ret. now rewrite Hq.
Qed.

End ContainerExtras.
